(** * auto_transcribe: response parser, Markdown export and batch loop

    A shallow embedding of [src/auto_transcribe.py]:
    [GeminiTranscriber._parse_response], [GeminiTranscriber.transcribe_audio],
    [ExportManager.to_notion_markdown] and [batch_transcribe_directory],
    together with the [str] and [pathlib] primitives they call.

    Conventions.
    - A Python [str] is a [string] whose characters are code points below 256.
    - Everything the code obtains from its environment (file sizes, the clock,
      the transcription service, directory listings, whether a file can be
      opened for writing) is a field of the record [world].
    - Effects are the files written and the lines printed; they are threaded
      through the monad [M], which also carries raised exceptions. *)

From Stdlib Require Import Ascii String NArith Lia Bool List.
From stdpp Require Import base option list gmap strings.

(** * Python [str] methods *)

Module Str.

(** [str.isspace] on the code points below 256: TAB..CR, FS..US, SPACE,
    NEL and NBSP. This is the set [str.strip()] removes. *)
Definition is_space (c : ascii) : bool :=
  let n := N_of_ascii c in
  ((9 <=? n) && (n <=? 13) || (28 <=? n) && (n <=? 32)
   || (n =? 133) || (n =? 160))%N.

Fixpoint lstrip (s : string) : string :=
  match s with
  | String c s' => if is_space c then lstrip s' else s
  | EmptyString => EmptyString
  end.

Fixpoint rstrip (s : string) : string :=
  match s with
  | EmptyString => EmptyString
  | String c s' =>
      match rstrip s' with
      | EmptyString => if is_space c then EmptyString else String c EmptyString
      | r => String c r
      end
  end.

(** [s.strip()] *)
Definition strip (s : string) : string := rstrip (lstrip s).

(** [str.lower] on one code point below 256: A..Z and the Latin-1 capitals
    (all of 0xC0..0xDE but the multiplication sign). *)
Definition lower_char (c : ascii) : ascii :=
  let n := N_of_ascii c in
  if ((65 <=? n) && (n <=? 90)
      || (192 <=? n) && (n <=? 222) && negb (n =? 215))%N
  then ascii_of_N (n + 32) else c.

Fixpoint lower (s : string) : string :=
  match s with
  | EmptyString => EmptyString
  | String c s' => String (lower_char c) (lower s')
  end.

(** [s.startswith(p)] *)
Fixpoint startswith (p s : string) : bool :=
  match p, s with
  | EmptyString, _ => true
  | String a p', String b s' => Ascii.eqb a b && startswith p' s'
  | String _ _, EmptyString => false
  end.

(** [s.find(sub)], with [None] for Python's [-1]. *)
Fixpoint find (sub s : string) : option nat :=
  if startswith sub s then Some 0
  else match s with
       | EmptyString => None
       | String _ s' => S <$> find sub s'
       end.

(** [s.rfind(sub)], with [None] for Python's [-1]. *)
Fixpoint rfind (sub s : string) : option nat :=
  match s with
  | EmptyString => if startswith sub s then Some 0 else None
  | String _ s' =>
      match rfind sub s' with
      | Some i => Some (S i)
      | None => if startswith sub s then Some 0 else None
      end
  end.

(** [sub in s] *)
Definition contains (sub s : string) : bool :=
  match find sub s with Some _ => true | None => false end.

(** [s[:n]] and [s[n:]] for [n >= 0] *)
Fixpoint take (n : nat) (s : string) : string :=
  match n, s with
  | S n', String c s' => String c (take n' s')
  | _, _ => EmptyString
  end.

Fixpoint drop (n : nat) (s : string) : string :=
  match n, s with
  | S n', String _ s' => drop n' s'
  | _, _ => s
  end.

(** [s.split(sep, maxsplit)] for a non-empty [sep]; [maxsplit = None] is
    Python's default (no limit). Every cut removes at least one character, so
    [S (length s)] rounds are enough: see [split_unfold]. *)
Fixpoint split_fuel (fuel : nat) (sep : string) (maxsplit : option nat)
    (s : string) : list string :=
  match fuel with
  | O => [s]
  | S fuel' =>
      match maxsplit with
      | Some O => [s]
      | _ =>
          match find sep s with
          | None => [s]
          | Some i =>
              take i s ::
              split_fuel fuel' sep (Nat.pred <$> maxsplit)
                (drop (i + String.length sep) s)
          end
      end
  end.

Definition split (sep : string) (maxsplit : option nat) (s : string)
    : list string :=
  split_fuel (S (String.length s)) sep maxsplit s.

(** The text before, and after, the first occurrence of [sep] in [s]
    ([s.partition(sep)[0]] and [s.partition(sep)[2]]). *)
Definition before (sep s : string) : string :=
  match find sep s with
  | Some i => take i s
  | None => s
  end.

Definition after (sep s : string) : string :=
  match find sep s with
  | Some i => drop (i + String.length sep) s
  | None => EmptyString
  end.

(** ["c" * n] *)
Fixpoint repeat (c : string) (n : nat) : string :=
  match n with
  | O => EmptyString
  | S n' => c +:+ repeat c n'
  end.

(** [sep.join(l)] *)
Fixpoint join (sep : string) (l : list string) : string :=
  match l with
  | [] => EmptyString
  | [x] => x
  | x :: l' => x +:+ sep +:+ join sep l'
  end.

End Str.

(** One line feed, the Python literal ['\n']. *)
Definition nl : string := String "010"%char EmptyString.

(** A text given line by line, the lines joined by ['\n']. *)
Definition lines (l : list string) : string := Str.join nl l.

(** * [pathlib] on POSIX paths *)

Module Path.

(** The components of a path: pathlib drops empty components and [.]. *)
Definition parts (p : string) : list string :=
  List.filter (fun c => negb (String.eqb c "") && negb (String.eqb c "."))
    (Str.split "/" None p).

(** [Path(p).name]: the final component, [''] when there is none. *)
Definition name (p : string) : string := default "" (last (parts p)).

(** [Path(p).suffix]: from the last dot of the name on, when that dot is
    neither the first nor the last character of the name. *)
Definition suffix (p : string) : string :=
  let n := name p in
  match Str.rfind "." n with
  | Some i =>
      if (0 <? i) && (i <? String.length n - 1) then Str.drop i n else ""
  | None => ""
  end.

(** [Path(p).stem]: the name without its suffix. *)
Definition stem (p : string) : string :=
  let n := name p in
  match Str.rfind "." n with
  | Some i =>
      if (0 <? i) && (i <? String.length n - 1) then Str.take i n else n
  | None => n
  end.

End Path.

(** * Values, exceptions and effects *)

(** The value bound to [response_text]: the service's [response.text] is a
    [str], or [None] when the response carries no text. *)
Inductive pyval :=
  | PyStr (s : string)
  | PyNone.

(** How an f-string renders a value. *)
Definition format_value (v : pyval) : string :=
  match v with
  | PyStr s => s
  | PyNone => "None"
  end.

(** A raised exception: its class and [str(e)]. *)
Record exn := Exn { exn_class : string; exn_msg : string }.

Inductive outcome (A : Type) :=
  | Returned (a : A)
  | Raised (e : exn).
Arguments Returned {A} a.
Arguments Raised {A} e.

(** What a run changes: the files written (path to content) and the lines
    printed, oldest first. *)
Record state := State {
  files : gmap string string;
  stdout : list string
}.

(** A computation that may print, write files and raise. *)
Definition M (A : Type) : Type := state -> outcome A * state.

Definition ret {A} (a : A) : M A := fun st => (Returned a, st).

Definition raise {A} (e : exn) : M A := fun st => (Raised e, st).

Definition bind {A B} (m : M A) (k : A -> M B) : M B :=
  fun st =>
    match m st with
    | (Returned a, st') => k a st'
    | (Raised e, st') => (Raised e, st')
    end.

(** [try: m  except Exception as e: h e] *)
Definition try_except {A} (m : M A) (h : exn -> M A) : M A :=
  fun st =>
    match m st with
    | (Returned a, st') => (Returned a, st')
    | (Raised e, st') => h e st'
    end.

(** A call into the environment that returns or raises, with no other effect. *)
Definition lift {A} (o : outcome A) : M A := fun st => (o, st).

(** [print(line)] *)
Definition print (line : string) : M unit :=
  fun st => (Returned tt, State (files st) (stdout st ++ [line])).

(** [f.write(content)] on a file just opened with mode ['w']. *)
Definition write_file (path content : string) : M unit :=
  fun st => (Returned tt, State (<[path := content]> (files st)) (stdout st)).

Declare Scope py_scope.
Delimit Scope py_scope with py.
Notation "x <- c1 ;; c2" := (bind c1 (fun x => c2))
  (at level 100, c1 at next level, right associativity) : py_scope.
Notation "c1 ;; c2" := (bind c1 (fun _ => c2))
  (at level 100, right associativity) : py_scope.

(** [for x in l: body x] *)
Fixpoint for_each {A} (l : list A) (body : A -> M unit) : M unit :=
  match l with
  | [] => ret tt
  | x :: l' => (body x ;; for_each l' body)%py
  end.

(** Sequencing of calls that only return or raise. *)
Definition obind {A B} (o : outcome A) (k : A -> outcome B) : outcome B :=
  match o with
  | Returned a => k a
  | Raised e => Raised e
  end.

(** [l[i]] on a list *)
Definition getitem (l : list string) (i : nat) : outcome string :=
  match l !! i with
  | Some x => Returned x
  | None => Raised (Exn "IndexError" "list index out of range")
  end.

(** * The environment *)

(** An entry yielded by [Path(d).iterdir()]: its path as [str(file_path)]
    gives it, and whether it is a directory. *)
Record dirent := Dirent { d_path : string; d_is_dir : bool }.

Record world := World {
  (** [os.path.getsize(path)] *)
  getsize : string -> outcome N;
  (** [f"{n / (1024*1024):.2f}"] for a size [n] in bytes *)
  format_mb : N -> string;
  (** [datetime.datetime.now().isoformat()] *)
  now_isoformat : string;
  (** [datetime.datetime.now().strftime('%Y%m%d_%H%M%S')] *)
  now_strftime : string;
  (** [genai.Client(api_key=None)] *)
  new_client : outcome unit;
  (** [client.files.upload(file=path)], the handle of the uploaded file *)
  files_upload : string -> outcome string;
  (** [client.models.generate_content(model, contents=[prompt, file]).text] *)
  generate_content : string -> string -> string -> outcome pyval;
  (** [open(path, 'w', encoding='utf-8')] *)
  open_w : string -> outcome unit;
  (** [Path(path).mkdir(exist_ok=True)] *)
  mkdir_exist_ok : string -> outcome unit;
  (** [Path(path).iterdir()] *)
  iterdir : string -> outcome (list dirent)
}.

(** * The record *)

Record FileInfo := mkFileInfo {
  filename : string;
  file_size : string;
  processed_at : string
}.

(** A Python [dict] from [str] to [str]: the items in insertion order,
    no key twice. *)
Definition dict : Type := list (string * string).

(** [d[k] = v]: a key already present keeps its place and takes the new
    value, a new key goes last. *)
Fixpoint dict_set (d : dict) (k v : string) : dict :=
  match d with
  | [] => [(k, v)]
  | (k', v') :: d' =>
      if String.eqb k' k then (k', v) :: d' else (k', v') :: dict_set d' k v
  end.

(** [d.get(k)] *)
Fixpoint dict_get (d : dict) (k : string) : option string :=
  match d with
  | [] => None
  | (k', v') :: d' => if String.eqb k' k then Some v' else dict_get d' k
  end.

Record TranscriptData := mkTranscriptData {
  file_info : FileInfo;
  metadata : dict;
  transcript : pyval;
  raw_response : pyval
}.

(** * GeminiTranscriber *)

Definition model : string := "gemini-2.5-flash".

Definition _get_detailed_prompt : string :=
  lines
    [ "";
      "        Please transcribe this audio recording with high accuracy and detail:";
      "";
      "        REQUIREMENTS:";
      "        1. SPEAKER IDENTIFICATION:";
      "           - Identify each unique speaker consistently (Speaker 1, Speaker 2, etc.)";
      "           - Use the same speaker labels throughout the entire recording";
      "           - Note when speakers change";
      "";
      "        2. TIMESTAMPING:";
      "           - Provide timestamps at every speaker change [HH:MM:SS]";
      "           - Add timestamps for major topic changes [approx. every 2-3 minutes]";
      "           - Mark significant pauses [pause], overlapping speech [overlap], or inaudible sections [inaudible]";
      "";
      "        3. FORMATTING:";
      "           - Use clear paragraph breaks between different topics";
      "           - Include important non-verbal cues: [laughs], [applause], [coughs] when relevant";
      "           - Maintain proper punctuation and capitalization";
      "           - Preserve technical terms or specific jargon accurately";
      "";
      "        4. OUTPUT STRUCTURE:";
      "           Start with metadata section, then the transcript.";
      "";
      "        Format your response exactly like this:";
      "";
      "        [METADATA]";
      "        Total Speakers: [number]";
      "        Audio Quality: [excellent/good/fair/poor]";
      "        Key Topics: [list main topics discussed]";
      "";
      "        [TRANSCRIPT]";
      "        [00:00:00] Speaker 1: Welcome everyone to today's meeting. Let's start with the quarterly review.";
      "        [00:00:15] Speaker 2: Thanks John. I'll begin with the sales numbers...";
      "        [00:02:30] Speaker 1: [interrupting] Can you clarify those Q3 figures?";
      "        [00:02:35] Speaker 2: Certainly. The Q3 numbers were...";
      "        " ].

Definition _get_basic_prompt : string :=
  lines
    [ "";
      "        Please transcribe this audio recording accurately with timestamps at regular intervals.";
      "        Include speaker changes when detectable and maintain proper formatting.";
      "        " ].

(** The [file_info] literal at the head of [_parse_response]; of its three
    entries only [os.path.getsize] can raise. *)
Definition build_file_info (w : world) (file_path : string)
    : outcome FileInfo :=
  obind (getsize w file_path) (fun size =>
  Returned {| filename := Path.name file_path;
              file_size := format_mb w size +:+ " MB";
              processed_at := now_isoformat w |}).

(** The loop over the lines of the metadata block. *)
Fixpoint parse_metadata (ls : list string) (metadata : dict) : outcome dict :=
  match ls with
  | [] => Returned metadata
  | line :: ls' =>
      if Str.contains ":" line then
        match Str.split ":" (Some 1) line with
        | [key; value] =>
            parse_metadata ls' (dict_set metadata (Str.strip key) (Str.strip value))
        | [] | [_] =>
            Raised (Exn "ValueError"
                      "not enough values to unpack (expected 2, got 1)")
        | _ => Raised (Exn "ValueError" "too many values to unpack (expected 2)")
        end
      else parse_metadata ls' metadata
  end.

(** The [try] block of [_parse_response] after [file_info] is bound. *)
Definition parse_sections (fi : FileInfo) (response_text : pyval)
    : outcome TranscriptData :=
  match response_text with
  | PyNone =>
      Raised (Exn "TypeError" "argument of type 'NoneType' is not iterable")
  | PyStr text =>
      if Str.contains "[METADATA]" text && Str.contains "[TRANSCRIPT]" text
      then
        obind (getitem (Str.split "[METADATA]" None text) 1) (fun after_md =>
        obind (getitem (Str.split "[TRANSCRIPT]" None after_md) 0) (fun block =>
        let metadata_section := Str.strip block in
        obind (getitem (Str.split "[TRANSCRIPT]" None text) 1) (fun after_tr =>
        let transcript_section := Str.strip after_tr in
        obind (parse_metadata (Str.split nl None metadata_section) [])
          (fun md =>
        Returned {| file_info := fi;
                    metadata := md;
                    transcript := PyStr transcript_section;
                    raw_response := response_text |}))))
      else
        Returned {| file_info := fi;
                    metadata := [("Note", "Auto-generated transcript")];
                    transcript := response_text;
                    raw_response := response_text |}
  end.

(** The [except] branch of [_parse_response]. It reads the local variable
    [file_info], which is bound only if the first statement of the [try]
    block completed. *)
Definition parse_except (local_file_info : option FileInfo)
    (response_text : pyval) (e : exn) : M TranscriptData :=
  (print ("Error parsing response: " +:+ exn_msg e) ;;
   match local_file_info with
   | Some fi =>
       ret {| file_info := fi;
              metadata := [("Error", "Failed to parse structure")];
              transcript := response_text;
              raw_response := response_text |}
   | None =>
       raise (Exn "UnboundLocalError"
                "cannot access local variable 'file_info' where it is not associated with a value")
   end)%py.

Definition _parse_response (w : world) (response_text : pyval)
    (file_path : string) : M TranscriptData :=
  match build_file_info w file_path with
  | Raised e => parse_except None response_text e
  | Returned fi =>
      match parse_sections fi response_text with
      | Raised e => parse_except (Some fi) response_text e
      | Returned data => ret data
      end
  end.

(** [transcribe_audio] returns [None] for every exception of its [try]
    block, the parser's included. *)
Definition transcribe_audio (w : world) (file_path : string)
    (enable_speaker_diarization : bool) : M (option TranscriptData) :=
  (print ("Uploading file: " +:+ file_path) ;;
   try_except
     (myfile <- lift (files_upload w file_path) ;;
      print "File uploaded successfully. Starting transcription..." ;;
      let prompt := if enable_speaker_diarization
                    then _get_detailed_prompt else _get_basic_prompt in
      response <- lift (generate_content w model prompt myfile) ;;
      print "Transcription completed!" ;;
      data <- _parse_response w response file_path ;;
      ret (Some data))
     (fun e =>
        print ("Error during transcription: " +:+ exn_msg e) ;;
        ret None))%py.

(** * ExportManager *)

(** The text [to_notion_markdown] writes. *)
Definition notion_markdown (transcript_data : TranscriptData) : string :=
  let fi := file_info transcript_data in
  let head :=
    "# Audio Transcript: " +:+ filename fi +:+ nl +:+
    nl +:+
    "## Metadata" +:+ nl +:+
    "- **File**: " +:+ filename fi +:+ nl +:+
    "- **Size**: " +:+ file_size fi +:+ nl +:+
    "- **Processed**: " +:+ processed_at fi +:+ nl in
  let fields :=
    fold_left (fun content kv =>
                 content +:+ "- **" +:+ fst kv +:+ "**: " +:+ snd kv +:+ nl)
      (metadata transcript_data) head in
  fields +:+
    nl +:+
    "---" +:+ nl +:+
    nl +:+
    "## Transcript" +:+ nl +:+
    nl +:+
    format_value (transcript transcript_data) +:+ nl +:+
    nl +:+
    "---" +:+ nl +:+
    "*Automatically generated using Gemini 2.5 Flash Transcription*" +:+ nl.

Definition to_notion_markdown (w : world) (transcript_data : TranscriptData)
    (output_path : option string) : M string :=
  let output_path :=
    match output_path with
    | Some p => p
    | None => "transcript_" +:+ now_strftime w +:+ ".md"
    end in
  let content := notion_markdown transcript_data in
  (lift (open_w w output_path) ;;
   write_file output_path content ;;
   print ("Notion Markdown exported to: " +:+ output_path) ;;
   ret output_path)%py.

(** * Batch processing *)

Definition audio_extensions : list string :=
  [".mp3"; ".wav"; ".m4a"; ".flac"; ".aac"; ".ogg"].

(** [file_path.suffix.lower() in audio_extensions] *)
Definition has_audio_suffix (file_path : string) : bool :=
  existsb (String.eqb (Str.lower (Path.suffix file_path))) audio_extensions.

(** Where the batch loop writes the transcript of [file_path]. *)
Definition artifact_path (output_directory file_path : string) : string :=
  output_directory +:+ "/" +:+ Path.stem file_path +:+ "_transcript.md".

(** One round of the [for] loop of [batch_transcribe_directory]. *)
Definition batch_iteration (w : world) (output_directory : string)
    (entry : dirent) : M unit :=
  let file_path := d_path entry in
  if has_audio_suffix file_path then
    (print (nl +:+ Str.repeat "=" 50) ;;
     print ("Processing: " +:+ Path.name file_path) ;;
     print (Str.repeat "=" 50) ;;
     try_except
       (result <- transcribe_audio w file_path true ;;
        match result with
        | Some data =>
            to_notion_markdown w data
              (Some (artifact_path output_directory file_path)) ;;
            ret tt
        | None => ret tt
        end)
       (fun e =>
          print ("Error processing " +:+ Path.name file_path +:+ ": "
                 +:+ exn_msg e)))%py
  else ret tt.

Definition batch_loop (w : world) (output_directory : string)
    (entries : list dirent) : M unit :=
  for_each entries (batch_iteration w output_directory).

Definition batch_transcribe_directory (w : world)
    (input_directory output_directory : string) : M unit :=
  (lift (mkdir_exist_ok w output_directory) ;;
   lift (new_client w) ;;
   entries <- lift (iterdir w input_directory) ;;
   batch_loop w output_directory entries)%py.

(** * Closed forms of what the parser computes on a [str] *)

(** [response_text.split('[METADATA]')[1].split('[TRANSCRIPT]')[0].strip()]
    when [[METADATA]] occurs in the text. *)
Definition metadata_section (text : string) : string :=
  Str.strip
    (Str.before "[TRANSCRIPT]"
       (Str.before "[METADATA]" (Str.after "[METADATA]" text))).

(** [response_text.split('[TRANSCRIPT]')[1].strip()] when [[TRANSCRIPT]]
    occurs in the text. *)
Definition transcript_section (text : string) : string :=
  Str.strip (Str.before "[TRANSCRIPT]" (Str.after "[TRANSCRIPT]" text)).

(** The pair a line with a colon contributes. *)
Definition colon_item (line : string) : string * string :=
  (Str.strip (Str.before ":" line), Str.strip (Str.after ":" line)).

(** The pairs of the lines that contain a colon, in line order. *)
Definition colon_items (ls : list string) : list (string * string) :=
  map colon_item (List.filter (Str.contains ":") ls).

(** The dictionary obtained by assigning the pairs one after the other. *)
Definition dict_of_items (l : list (string * string)) : dict :=
  fold_left (fun d kv => dict_set d (fst kv) (snd kv)) l [].

(** The distinct elements of a list, each at the place of its first
    occurrence. *)
Fixpoint first_occurrences (l : list string) : list string :=
  match l with
  | [] => []
  | x :: l' =>
      x :: List.filter (fun y => negb (String.eqb x y)) (first_occurrences l')
  end.

(** Both markers occur in the text. *)
Definition has_markers (text : string) : bool :=
  Str.contains "[METADATA]" text && Str.contains "[TRANSCRIPT]" text.

(** [[TRANSCRIPT]] occurs in the text before any [[METADATA]]. *)
Definition transcript_marker_first (text : string) : bool :=
  match Str.find "[TRANSCRIPT]" text, Str.find "[METADATA]" text with
  | Some i, Some j => i <? j
  | _, _ => false
  end.

(** The record of the structured path. *)
Definition structured_record (fi : FileInfo) (text : string) : TranscriptData :=
  {| file_info := fi;
     metadata :=
       dict_of_items (colon_items (Str.split nl None (metadata_section text)));
     transcript := PyStr (transcript_section text);
     raw_response := PyStr text |}.

(** The record of a fallback path, with its one sentinel entry. *)
Definition sentinel_record (fi : FileInfo) (key value : string)
    (response_text : pyval) : TranscriptData :=
  {| file_info := fi;
     metadata := [(key, value)];
     transcript := response_text;
     raw_response := response_text |}.

(** The service call of [transcribe_audio] for one file. *)
Definition collaborator_call (w : world) (file_path : string) : outcome pyval :=
  obind (files_upload w file_path)
    (generate_content w model _get_detailed_prompt).

Definition collaborator_fails (w : world) (file_path : string) : bool :=
  match collaborator_call w file_path with
  | Raised _ => true
  | Returned _ => false
  end.

(** Nothing raises for this file: the service answers, the size can be read
    and the artifact can be opened for writing. *)
Definition processing_succeeds (w : world) (output_directory file_path : string)
    : bool :=
  match collaborator_call w file_path, getsize w file_path,
        open_w w (artifact_path output_directory file_path) with
  | Returned _, Returned _, Returned _ => true
  | _, _, _ => false
  end.

(** * A sample environment *)

Module Demo.

Definition structured_text : string :=
  lines ["[METADATA]"; "Total Speakers: 2"; "Audio Quality: good";
         "[TRANSCRIPT]"; "Hello world"].

Definition reversed_text : string :=
  lines ["[TRANSCRIPT]"; "foo"; "[METADATA]"; "bar: baz"].

Definition no_colon_text : string :=
  lines ["[METADATA]"; "[TRANSCRIPT]"; "hi"].

Definition two_transcript_markers : string :=
  lines ["[METADATA]"; "A: b"; "[TRANSCRIPT]"; "foo [TRANSCRIPT] bar"].

Definition mixed_text : string :=
  lines ["[METADATA]"; "k: 1"; "j: 2"; "no colon here"; "k : 3:4";
         "[TRANSCRIPT]"; "Hello world"].

(** A directory [in] with three recordings, a text file and a subdirectory
    named [album.mp3]. The file [missing.mp3] does not exist; the service
    fails on [b.wav]; a directory cannot be uploaded. *)
Definition listing : list dirent :=
  [ Dirent "in/a.mp3" false; Dirent "in/b.wav" false;
    Dirent "in/notes.txt" false; Dirent "in/album.mp3" true;
    Dirent "in/c.OGG" false ].

Definition w : world := {|
  getsize := fun p =>
    if String.eqb p "missing.mp3"
    then Raised (Exn "FileNotFoundError"
                   "[Errno 2] No such file or directory: 'missing.mp3'")
    else Returned 1048576%N;
  format_mb := fun _ => "1.00";
  now_isoformat := "2024-01-01T00:00:00";
  now_strftime := "20240101_000000";
  new_client := Returned tt;
  files_upload := fun p =>
    if String.eqb p "in/album.mp3"
    then Raised (Exn "IsADirectoryError"
                   "[Errno 21] Is a directory: 'in/album.mp3'")
    else Returned ("files/" +:+ p);
  generate_content := fun _ _ file =>
    if String.eqb file "files/in/b.wav"
    then Raised (Exn "ServerError" "503 UNAVAILABLE")
    else Returned (PyStr structured_text);
  open_w := fun _ => Returned tt;
  mkdir_exist_ok := fun _ => Returned tt;
  iterdir := fun _ => Returned listing
|}.

Definition st : state := State ∅ [].

Definition fi : FileInfo :=
  {| filename := "a.mp3"; file_size := "1.00 MB";
     processed_at := "2024-01-01T00:00:00" |}.

End Demo.

(** * The other exporters *)

(** The double quote character, and the backslash. *)
Definition dq : string := String "034"%char EmptyString.

Definition bs : string := String "092"%char EmptyString.

(** The explicit path, or the default built from the clock. *)
Definition default_path (w : world) (output_path : option string)
    (extension : string) : string :=
  match output_path with
  | Some p => p
  | None => "transcript_" +:+ now_strftime w +:+ extension
  end.

(** The header [to_google_docs_text] puts before the transcript. *)
Definition google_docs_header (fi : FileInfo) : string :=
  (("TRANSCRIPT: " +:+ filename fi +:+ nl) +:+
   ("Generated: " +:+ processed_at fi +:+ nl)) +:+
  (Str.repeat "=" 50 +:+ nl +:+ nl).

(** [content += transcript_data['transcript']]: only a [str] can be
    appended to a [str]. *)
Definition google_docs_text (transcript_data : TranscriptData)
    : outcome string :=
  match transcript transcript_data with
  | PyStr t => Returned (google_docs_header (file_info transcript_data) +:+ t)
  | PyNone =>
      Raised (Exn "TypeError"
                ("can only concatenate str (not " +:+ dq +:+ "NoneType" +:+ dq
                 +:+ ") to str"))
  end.

Definition to_google_docs_text (w : world) (transcript_data : TranscriptData)
    (output_path : option string) : M string :=
  let output_path := default_path w output_path ".txt" in
  (content <- lift (google_docs_text transcript_data) ;;
   lift (open_w w output_path) ;;
   write_file output_path content ;;
   print ("Google Docs text exported to: " +:+ output_path) ;;
   ret output_path)%py.

(** ** [json.dump(obj, f, indent=2, ensure_ascii=False)] *)

(** The values the record is made of. *)
Inductive json :=
  | JNull
  | JStr (s : string)
  | JObj (items : list (string * json)).

(** One lowercase hexadecimal digit. *)
Definition hex_digit (n : N) : ascii :=
  if (n <? 10)%N then ascii_of_N (48 + n) else ascii_of_N (87 + n).

(** The replacement of one character inside a JSON string: the quote, the
    backslash and the control characters are escaped, every other character
    is kept ([ensure_ascii=False]). *)
Definition json_escape_char (c : ascii) : string :=
  let n := N_of_ascii c in
  if (n =? 34)%N then bs +:+ dq
  else if (n =? 92)%N then bs +:+ bs
  else if (n =? 10)%N then bs +:+ "n"
  else if (n =? 13)%N then bs +:+ "r"
  else if (n =? 9)%N then bs +:+ "t"
  else if (n =? 8)%N then bs +:+ "b"
  else if (n =? 12)%N then bs +:+ "f"
  else if (n <? 32)%N then
    bs +:+ "u00" +:+
    String (hex_digit (n / 16)) (String (hex_digit (n mod 16)) EmptyString)
  else String c EmptyString.

Fixpoint json_escape (s : string) : string :=
  match s with
  | EmptyString => EmptyString
  | String c s' => json_escape_char c +:+ json_escape s'
  end.

Definition json_string (s : string) : string := dq +:+ json_escape s +:+ dq.

(** The text of a value at nesting depth [level], two spaces per level. *)
Fixpoint json_encode (level : nat) (j : json) : string :=
  match j with
  | JNull => "null"
  | JStr s => json_string s
  | JObj [] => "{}"
  | JObj items =>
      let newline_indent := nl +:+ Str.repeat " " (2 * S level) in
      "{" +:+ newline_indent +:+
      Str.join ("," +:+ newline_indent)
        (map (fun kv => json_string (fst kv) +:+ ": "
                        +:+ json_encode (S level) (snd kv)) items)
      +:+ nl +:+ Str.repeat " " (2 * level) +:+ "}"
  end.

Definition json_of_pyval (v : pyval) : json :=
  match v with
  | PyStr s => JStr s
  | PyNone => JNull
  end.

Definition json_of_dict (d : dict) : json :=
  JObj (map (fun kv => (fst kv, JStr (snd kv))) d).

(** The record as the nested [dict] the code builds. *)
Definition json_of_data (transcript_data : TranscriptData) : json :=
  let fi := file_info transcript_data in
  JObj [ ("file_info",
          JObj [ ("filename", JStr (filename fi));
                 ("file_size", JStr (file_size fi));
                 ("processed_at", JStr (processed_at fi)) ]);
         ("metadata", json_of_dict (metadata transcript_data));
         ("transcript", json_of_pyval (transcript transcript_data));
         ("raw_response", json_of_pyval (raw_response transcript_data)) ].

Definition json_dumps (transcript_data : TranscriptData) : string :=
  json_encode 0 (json_of_data transcript_data).

Definition to_json (w : world) (transcript_data : TranscriptData)
    (output_path : option string) : M string :=
  let output_path := default_path w output_path ".json" in
  (lift (open_w w output_path) ;;
   write_file output_path (json_dumps transcript_data) ;;
   print ("JSON exported to: " +:+ output_path) ;;
   ret output_path)%py.

(** * The single-file workflow *)

(** The environment at a later reading of the clock. *)
Definition at_clock (w : world) (stamp : string) : world :=
  {| getsize := getsize w;
     format_mb := format_mb w;
     now_isoformat := now_isoformat w;
     now_strftime := stamp;
     new_client := new_client w;
     files_upload := files_upload w;
     generate_content := generate_content w;
     open_w := open_w w;
     mkdir_exist_ok := mkdir_exist_ok w;
     iterdir := iterdir w |}.

Definition audio_file : string := "path/to/your/audio/file.mp3".

(** [d.get(k, default)] *)
Definition dict_get_default (d : dict) (k fallback : string) : string :=
  match dict_get d k with
  | Some v => v
  | None => fallback
  end.

(** [result['transcript'][:500] + "..."] *)
Definition transcript_preview (v : pyval) : outcome string :=
  match v with
  | PyStr t => Returned (Str.take 500 t +:+ "...")
  | PyNone =>
      Raised (Exn "TypeError" "'NoneType' object is not subscriptable")
  end.

(** [main()]. [path_exists] is [os.path.exists]; [stamps] are the readings of
    the clock at the three exports, in the order of the calls. *)
Definition main (w : world) (path_exists : string -> bool)
    (stamps : string * string * string) : M unit :=
  (lift (new_client w) ;;
   if negb (path_exists audio_file) then
     print ("Error: File not found - " +:+ audio_file) ;;
     print "Please update the 'audio_file' variable with your actual file path"
   else
     print "=== Gemini 2.5 Flash Transcription ===" ;;
     result <- transcribe_audio w audio_file true ;;
     match result with
     | Some data =>
         notion_file <-
           to_notion_markdown (at_clock w (fst (fst stamps))) data None ;;
         docs_file <-
           to_google_docs_text (at_clock w (snd (fst stamps))) data None ;;
         json_file <- to_json (at_clock w (snd stamps)) data None ;;
         print (nl +:+ "=== TRANSCRIPTION COMPLETE ===") ;;
         print ("Input file: " +:+ filename (file_info data)) ;;
         print ("Speakers identified: " +:+
                dict_get_default (metadata data) "Total Speakers" "Unknown") ;;
         print ("Audio quality: " +:+
                dict_get_default (metadata data) "Audio Quality" "Unknown") ;;
         print (nl +:+ "First 500 characters of transcript:") ;;
         preview <- lift (transcript_preview (transcript data)) ;;
         print preview ;;
         print (nl +:+ "Exported files:") ;;
         print ("- Notion: " +:+ notion_file) ;;
         print ("- Google Docs: " +:+ docs_file) ;;
         print ("- JSON: " +:+ json_file)
     | None =>
         print "Transcription failed. Please check the error messages above."
     end)%py.

(** The paths of the three exports of [main]. *)
Definition main_md_path (stamps : string * string * string) : string :=
  "transcript_" +:+ fst (fst stamps) +:+ ".md".

Definition main_txt_path (stamps : string * string * string) : string :=
  "transcript_" +:+ snd (fst stamps) +:+ ".txt".

Definition main_json_path (stamps : string * string * string) : string :=
  "transcript_" +:+ snd stamps +:+ ".json".

(** * Closed forms of the service call and of a batch run *)

(** The record the parser returns when [file_info] is bound. *)
Definition parsed_record (fi : FileInfo) (response_text : pyval)
    : TranscriptData :=
  match response_text with
  | PyStr text =>
      if has_markers text then structured_record fi text
      else sentinel_record fi "Note" "Auto-generated transcript" response_text
  | PyNone => sentinel_record fi "Error" "Failed to parse structure" PyNone
  end.

(** What [transcribe_audio] returns. *)
Definition transcribe_result (w : world) (file_path : string)
    (enable_speaker_diarization : bool) : option TranscriptData :=
  let prompt := if enable_speaker_diarization
                then _get_detailed_prompt else _get_basic_prompt in
  match files_upload w file_path with
  | Raised _ => None
  | Returned myfile =>
      match generate_content w model prompt myfile with
      | Raised _ => None
      | Returned response =>
          match build_file_info w file_path with
          | Raised _ => None
          | Returned fi => Some (parsed_record fi response)
          end
      end
  end.

(** The files one round of the batch loop leaves. *)
Definition batch_round_files (w : world) (output_directory : string)
    (fs : gmap string string) (entry : dirent) : gmap string string :=
  let file_path := d_path entry in
  if has_audio_suffix file_path then
    match transcribe_result w file_path true,
          open_w w (artifact_path output_directory file_path) with
    | Some data, Returned _ =>
        <[artifact_path output_directory file_path := notion_markdown data]> fs
    | _, _ => fs
    end
  else fs.

(** The files a batch run leaves: the rounds in listing order. *)
Definition batch_files (w : world) (output_directory : string)
    (entries : list dirent) (fs : gmap string string) : gmap string string :=
  fold_left (batch_round_files w output_directory) entries fs.

(** Every character of the text is white space. *)
Fixpoint all_space (s : string) : bool :=
  match s with
  | EmptyString => true
  | String c s' => Str.is_space c && all_space s'
  end.

(** The last character of a text. *)
Fixpoint last_char (s : string) : option ascii :=
  match s with
  | EmptyString => None
  | String c EmptyString => Some c
  | String _ s' => last_char s'
  end.

(** * More samples *)

Module Sample.

(** The sample environment on a medium that cannot be written. *)
Definition read_only : world :=
  {| getsize := getsize Demo.w;
     format_mb := format_mb Demo.w;
     now_isoformat := now_isoformat Demo.w;
     now_strftime := now_strftime Demo.w;
     new_client := new_client Demo.w;
     files_upload := files_upload Demo.w;
     generate_content := generate_content Demo.w;
     open_w := fun p =>
       Raised (Exn "PermissionError"
                 ("[Errno 13] Permission denied: '" +:+ p +:+ "'"));
     mkdir_exist_ok := mkdir_exist_ok Demo.w;
     iterdir := iterdir Demo.w |}.

(** The sample environment with a service that answers without text. *)
Definition no_text : world :=
  {| getsize := getsize Demo.w;
     format_mb := format_mb Demo.w;
     now_isoformat := now_isoformat Demo.w;
     now_strftime := now_strftime Demo.w;
     new_client := new_client Demo.w;
     files_upload := files_upload Demo.w;
     generate_content := fun _ _ _ => Returned PyNone;
     open_w := open_w Demo.w;
     mkdir_exist_ok := mkdir_exist_ok Demo.w;
     iterdir := iterdir Demo.w |}.

Definition data : TranscriptData :=
  structured_record Demo.fi Demo.structured_text.

Definition error_data : TranscriptData :=
  sentinel_record Demo.fi "Error" "Failed to parse structure" PyNone.

(** Two recordings with the same stem, and the sample environment over a
    directory that holds just these two. *)
Definition same_stem : list dirent :=
  [ Dirent "in/a.mp3" false; Dirent "in/a.wav" false ].

Definition same_stem_world : world :=
  {| getsize := getsize Demo.w;
     format_mb := format_mb Demo.w;
     now_isoformat := now_isoformat Demo.w;
     now_strftime := now_strftime Demo.w;
     new_client := new_client Demo.w;
     files_upload := files_upload Demo.w;
     generate_content := generate_content Demo.w;
     open_w := open_w Demo.w;
     mkdir_exist_ok := mkdir_exist_ok Demo.w;
     iterdir := fun _ => Returned same_stem |}.

(** The sample environment where the output directory cannot be created. *)
Definition no_output_directory : world :=
  {| getsize := getsize Demo.w;
     format_mb := format_mb Demo.w;
     now_isoformat := now_isoformat Demo.w;
     now_strftime := now_strftime Demo.w;
     new_client := new_client Demo.w;
     files_upload := files_upload Demo.w;
     generate_content := generate_content Demo.w;
     open_w := open_w Demo.w;
     mkdir_exist_ok := fun p =>
       Raised (Exn "FileNotFoundError"
                 ("[Errno 2] No such file or directory: '" +:+ p +:+ "'"));
     iterdir := iterdir Demo.w |}.

Definition stamps : string * string * string :=
  ("20240101_000000", "20240101_000000", "20240101_000001").

End Sample.

(** * Reading a JSON string back *)

Definition hex_value (c : ascii) : option N :=
  let n := N_of_ascii c in
  if ((48 <=? n) && (n <=? 57))%N then Some (n - 48)%N
  else if ((97 <=? n) && (n <=? 102))%N then Some (n - 87)%N
  else None.

(** The character a one-letter escape stands for. *)
Definition json_unescape_letter (e : ascii) : ascii :=
  if Ascii.eqb e "n" then "010"
  else if Ascii.eqb e "r" then "013"
  else if Ascii.eqb e "t" then "009"
  else if Ascii.eqb e "b" then "008"
  else if Ascii.eqb e "f" then "012"
  else e.

(** From just after the opening quote of a JSON string: the text it encodes
    and what follows its closing quote. It is the reader against which the
    encoder is shown to lose nothing. *)
Fixpoint json_read_string (s : string) : option (string * string) :=
  match s with
  | EmptyString => None
  | String c s1 =>
      if Ascii.eqb c "034" then Some (EmptyString, s1)
      else if Ascii.eqb c "092" then
        match s1 with
        | EmptyString => None
        | String e s2 =>
            if Ascii.eqb e "u" then
              match s2 with
              | String _ (String _ (String h (String l s3))) =>
                  match hex_value h, hex_value l, json_read_string s3 with
                  | Some a, Some b, Some (t, rest) =>
                      Some (String (ascii_of_N (16 * a + b)) t, rest)
                  | _, _, _ => None
                  end
              | _ => None
              end
            else
              match json_read_string s2 with
              | Some (t, rest) => Some (String (json_unescape_letter e) t, rest)
              | None => None
              end
        end
      else
        match json_read_string s1 with
        | Some (t, rest) => Some (String c t, rest)
        | None => None
        end
  end.

(** * sort_files: the keyword rules *)

Module SortFiles.

Definition DOWNLOADS_DIR : string := "C:\Users\YourName\Downloads".

Definition DEST_BASE : string := "C:\Users\YourName\Documents\SortedDocs".

(** The rules, in the order of the [dict] literal. *)
Definition CATEGORY_RULES : list (string * list string) :=
  [ ("Finance", ["invoice"; "payment"; "receipt"; "tax"; "bill"]);
    ("Engineering", ["spec"; "technical"; "design"; "blueprint"; "circuit"]);
    ("HR", ["resume"; "cv"; "employee"; "salary"; "hiring"]);
    ("Legal", ["contract"; "agreement"; "nda"; "policy"]);
    ("Reports", ["report"; "analysis"; "summary"; "review"]) ].

(** The class [\w] of [re] on the code points below 256: the underscore and
    the characters [str.isalnum] accepts. *)
Definition is_word_char (c : ascii) : bool :=
  let n := N_of_ascii c in
  ((48 <=? n) && (n <=? 57) || (65 <=? n) && (n <=? 90) || (n =? 95)
   || (97 <=? n) && (n <=? 122)
   || (n =? 170) || (n =? 178) || (n =? 179) || (n =? 181) || (n =? 185)
   || (n =? 186) || (188 <=? n) && (n <=? 190)
   || (192 <=? n) && (n <=? 214) || (216 <=? n) && (n <=? 246)
   || (248 <=? n))%N.

(** No word character stands at the head of the text: there [\b] matches
    after a word character. *)
Definition boundary_after (text : string) : bool :=
  match text with
  | EmptyString => true
  | String c _ => negb (is_word_char c)
  end.

(** [re.search(rf"\b{word}\b", text)] for a non-empty [word] made of word
    characters, as every keyword of the rules is: [word] stands somewhere in
    the text with no word character right before it and none right after it.
    [prev] tells whether a word character stands right before [text]. *)
Fixpoint word_search (prev : bool) (word text : string) : bool :=
  let here :=
    negb prev && Str.startswith word text
    && boundary_after (Str.drop (String.length word) text) in
  match text with
  | EmptyString => here
  | String c rest => here || word_search (is_word_char c) word rest
  end.

(** The inner loop of [get_file_category]. *)
Fixpoint any_keyword (keywords : list string) (text : string) : bool :=
  match keywords with
  | [] => false
  | word :: keywords' =>
      if word_search false word text then true else any_keyword keywords' text
  end.

(** The outer loop of [get_file_category]. *)
Fixpoint first_category (rules : list (string * list string)) (text : string)
    : string :=
  match rules with
  | [] => "Unsorted"
  | (category, keywords) :: rules' =>
      if any_keyword keywords text then category
      else first_category rules' text
  end.

Definition get_file_category (text : string) : string :=
  first_category CATEGORY_RULES text.

(** [word] stands in [text] as a whole word. *)
Definition occurs_as_word (word text : string) : Prop :=
  exists l r,
    text = l +:+ word +:+ r
    /\ match last_char l with
       | Some c => is_word_char c = false
       | None => True
       end
    /\ boundary_after r = true.

(** Every character of the text is a word character. *)
Fixpoint all_word_chars (s : string) : bool :=
  match s with
  | EmptyString => true
  | String c s' => is_word_char c && all_word_chars s'
  end.

(** ** The files and the loop *)

(** What the loop asks of its environment. A page of a PDF gives its text,
    [None], or raises. *)
Record os_env := OsEnv {
  (** [os.listdir(path)] *)
  os_listdir : string -> outcome (list string);
  (** [os.path.isfile(path)] *)
  os_isfile : string -> bool;
  (** [os.path.join(a, b)] *)
  os_join : string -> string -> string;
  (** [os.path.basename(path)] *)
  os_basename : string -> string;
  (** [PdfReader(path).pages], each page with what [extract_text()] does *)
  pdf_reader : string -> outcome (list (outcome pyval));
  (** [[para.text for para in Document(path).paragraphs]] *)
  docx_document : string -> outcome (list string);
  (** [os.makedirs(path, exist_ok=True)] *)
  os_makedirs : string -> outcome unit;
  (** [shutil.move(src, dst)] *)
  shutil_move : string -> string -> outcome unit
}.

(** What a run does, in order. *)
Inductive event :=
  | Printed (line : string)
  | MadeDirs (path : string)
  | Moved (src dst : string).

(** [os.path.splitext(name)[1]] for a name without separator, as
    [os.listdir] gives them: from the last dot on, unless only dots come
    before it. *)
Fixpoint all_dots (s : string) : bool :=
  match s with
  | EmptyString => true
  | String c s' => Ascii.eqb c "." && all_dots s'
  end.

Definition splitext_ext (name : string) : string :=
  match Str.rfind "." name with
  | Some i => if all_dots (Str.take i name) then "" else Str.drop i name
  | None => ""
  end.

(** The loop over the first pages: [text += page.extract_text() or ""]. *)
Fixpoint pdf_text (pages : list (outcome pyval)) (text : string)
    : outcome string :=
  match pages with
  | [] => Returned text
  | page :: pages' =>
      match page with
      | Raised e => Raised e
      | Returned (PyStr t) => pdf_text pages' (text +:+ t)
      | Returned PyNone => pdf_text pages' (text +:+ "")
      end
  end.

Definition extract_text_from_pdf (env : os_env) (filepath : string)
    : list event * string :=
  match obind (pdf_reader env filepath) (fun pages =>
          pdf_text (firstn 5 pages) "") with
  | Returned text => ([], Str.lower text)
  | Raised e =>
      ([Printed ("PDF read error (" +:+ filepath +:+ "): " +:+ exn_msg e)], "")
  end.

Definition extract_text_from_docx (env : os_env) (filepath : string)
    : list event * string :=
  match docx_document env filepath with
  | Returned paragraphs => ([], Str.lower (Str.join nl paragraphs))
  | Raised e =>
      ([Printed ("DOCX read error (" +:+ filepath +:+ "): " +:+ exn_msg e)], "")
  end.

(** Where [move_file] puts a file of a category. In the message of
    [move_file] the arrow stands as the bytes of its UTF-8 encoding. *)
Definition destination (env : os_env) (src_path category : string) : string :=
  os_join env (os_join env DEST_BASE category) (os_basename env src_path).

Definition move_file (env : os_env) (src_path category : string)
    : list event * outcome unit :=
  let dest_dir := os_join env DEST_BASE category in
  match os_makedirs env dest_dir with
  | Raised e => ([], Raised e)
  | Returned _ =>
      match shutil_move env src_path (destination env src_path category) with
      | Raised e => ([MadeDirs dest_dir], Raised e)
      | Returned _ =>
          ([MadeDirs dest_dir;
            Moved src_path (destination env src_path category);
            Printed ("Moved → " +:+ category +:+ ": "
                     +:+ os_basename env src_path)],
           Returned tt)
      end
  end.

(** One round of the loop of [sort_files]. *)
Definition sort_round (env : os_env) (filename : string)
    : list event * outcome unit :=
  let filepath := os_join env DOWNLOADS_DIR filename in
  if negb (os_isfile env filepath) then ([], Returned tt)
  else
    let ext := Str.lower (splitext_ext filename) in
    let extracted :=
      if String.eqb ext ".pdf" then Some (extract_text_from_pdf env filepath)
      else if String.eqb ext ".docx"
           then Some (extract_text_from_docx env filepath)
           else None in
    match extracted with
    | None => ([], Returned tt)
    | Some (events, text) =>
        let moved := move_file env filepath (get_file_category text) in
        (events ++ fst moved, snd moved)
    end.

(** The [for] loop: a round that raises ends the run. *)
Fixpoint sort_loop (env : os_env) (filenames : list string)
    : list event * outcome unit :=
  match filenames with
  | [] => ([], Returned tt)
  | filename :: filenames' =>
      match sort_round env filename with
      | (events, Returned _) =>
          let rest := sort_loop env filenames' in
          (events ++ fst rest, snd rest)
      | (events, Raised e) => (events, Raised e)
      end
  end.

Definition sort_files (env : os_env) : list event * outcome unit :=
  match os_listdir env DOWNLOADS_DIR with
  | Raised e => ([], Raised e)
  | Returned filenames => sort_loop env filenames
  end.

(** A round moves a file: the entry is a file with one of the two
    extensions. *)
Definition is_document (env : os_env) (filename : string) : bool :=
  os_isfile env (os_join env DOWNLOADS_DIR filename)
  && (String.eqb (Str.lower (splitext_ext filename)) ".pdf"
      || String.eqb (Str.lower (splitext_ext filename)) ".docx").

(** The folders a file can be moved to. *)
Definition categories : list string :=
  ["Finance"; "Engineering"; "HR"; "Legal"; "Reports"; "Unsorted"].

(** A sample: a folder, an unreadable PDF, a report and a picture. *)
Definition sample_env : os_env :=
  {| os_listdir := fun _ =>
       Returned ["old"; "scan.PDF"; "q3.docx"; "cat.png"];
     os_isfile := fun p => negb (String.eqb p "C:\Users\YourName\Downloads/old");
     os_join := fun a b => a +:+ "/" +:+ b;
     os_basename := fun p => Path.name p;
     pdf_reader := fun _ =>
       Raised (Exn "PdfReadError" "EOF marker not found");
     docx_document := fun _ =>
       Returned ["Quarterly Report"; "Summary of the payment plan"];
     os_makedirs := fun _ => Returned tt;
     shutil_move := fun _ _ => Returned tt |}.

(** The sample with a destination that cannot be written. *)
Definition sample_read_only : os_env :=
  {| os_listdir := os_listdir sample_env;
     os_isfile := os_isfile sample_env;
     os_join := os_join sample_env;
     os_basename := os_basename sample_env;
     pdf_reader := pdf_reader sample_env;
     docx_document := docx_document sample_env;
     os_makedirs := os_makedirs sample_env;
     shutil_move := fun _ dst =>
       Raised (Exn "PermissionError"
                 ("[Errno 13] Permission denied: '" +:+ dst +:+ "'")) |}.

End SortFiles.

(** * Facts on the [str] methods *)

Module StrFacts.
Import Str.

Lemma startswith_length p s :
  startswith p s = true -> String.length p <= String.length s.
Proof.
  revert s; induction p as [|a p IH]; intros [|b s]; simpl; try lia; try discriminate.
  intros [_ H]%andb_prop. apply IH in H. lia.
Qed.

Lemma find_bound sub s i :
  find sub s = Some i -> i + String.length sub <= String.length s.
Proof.
  revert i; induction s as [|c s IH]; intros i.
  - simpl. destruct (startswith sub "") eqn:E; [|discriminate].
    intros [= <-]. apply startswith_length in E. simpl in *. lia.
  - cbn [find]. destruct (startswith sub (String c s)) eqn:E.
    + intros [= <-]. apply startswith_length in E. lia.
    + destruct (find sub s) as [j|]; [|discriminate].
      intros [= <-]. specialize (IH j eq_refl). simpl. lia.
Qed.

Lemma length_drop n s : String.length (drop n s) = String.length s - n.
Proof.
  revert s; induction n as [|n IH]; intros [|c s]; simpl; auto.
Qed.

Lemma split_fuel_enough sep (Hsep : sep <> EmptyString) n m k s :
  String.length s < n -> String.length s < m ->
  split_fuel n sep k s = split_fuel m sep k s.
Proof.
  revert m k s; induction n as [|n IH]; intros m k s Hn Hm; [lia|].
  destruct m as [|m]; [lia|].
  cbn [split_fuel].
  assert (forall i, find sep s = Some i ->
            split_fuel n sep (Nat.pred <$> k) (drop (i + String.length sep) s)
            = split_fuel m sep (Nat.pred <$> k) (drop (i + String.length sep) s))
    as Hrec.
  { intros i Hi. pose proof (find_bound _ _ _ Hi) as Hb.
    assert (0 < String.length sep) by (destruct sep; [done | simpl; lia]).
    apply IH; rewrite length_drop; lia. }
  destruct k as [[|k]|]; [done | |].
  - destruct (find sep s) as [i|] eqn:Hi; [|done]. by rewrite (Hrec i).
  - destruct (find sep s) as [i|] eqn:Hi; [|done]. by rewrite (Hrec i).
Qed.

(** The equation of [str.split]: fuel never runs out. *)
Lemma split_unfold sep (Hsep : sep <> EmptyString) k s :
  split sep k s =
    match k with
    | Some O => [s]
    | _ =>
        match find sep s with
        | None => [s]
        | Some i =>
            take i s :: split sep (Nat.pred <$> k) (drop (i + String.length sep) s)
        end
    end.
Proof.
  unfold split at 1. cbn [split_fuel].
  destruct k as [[|k]|]; [done | |].
  - destruct (find sep s) as [i|] eqn:Hi; [|done].
    f_equal. pose proof (find_bound _ _ _ Hi).
    assert (0 < String.length sep) by (destruct sep; [done | simpl; lia]).
    apply split_fuel_enough; [done | |]; rewrite length_drop; lia.
  - destruct (find sep s) as [i|] eqn:Hi; [|done].
    f_equal. pose proof (find_bound _ _ _ Hi).
    assert (0 < String.length sep) by (destruct sep; [done | simpl; lia]).
    apply split_fuel_enough; [done | |]; rewrite length_drop; lia.
Qed.


Lemma split_head sep (Hsep : sep <> EmptyString) s :
  split sep None s !! 0 = Some (before sep s).
Proof.
  rewrite split_unfold by done. unfold before.
  by destruct (find sep s).
Qed.

Lemma split_second sep (Hsep : sep <> EmptyString) s :
  contains sep s = true ->
  split sep None s !! 1 = Some (before sep (after sep s)).
Proof.
  unfold contains, after. rewrite split_unfold by done.
  destruct (find sep s) as [i|]; [|discriminate]. intros _.
  change ((?x :: ?l) !! 1) with (l !! 0). by apply split_head.
Qed.

Lemma split_once sep (Hsep : sep <> EmptyString) s :
  contains sep s = true ->
  split sep (Some 1) s = [before sep s; after sep s].
Proof.
  unfold contains, before, after. rewrite split_unfold by done.
  destruct (find sep s) as [i|]; [|discriminate]. intros _.
  by rewrite split_unfold.
Qed.

Lemma startswith_eq p s :
  startswith p s = true -> s = p +:+ drop (String.length p) s.
Proof.
  revert s; induction p as [|a p IH]; intros [|b s]; simpl; try done.
  intros [Hab H]%andb_prop. apply Ascii.eqb_eq in Hab as ->.
  unfold String.app; simpl. f_equal. by apply IH.
Qed.

Lemma startswith_take p n s :
  startswith p (take n s) = true -> startswith p s = true.
Proof.
  revert n s; induction p as [|a p IH]; intros n s; [done|].
  destruct n as [|n], s as [|b s]; simpl; try discriminate.
  intros [-> H]%andb_prop. simpl. eauto.
Qed.

(** [find] returns the first occurrence: the text before it holds none. *)
Lemma find_before sep (Hsep : sep <> EmptyString) s :
  find sep (before sep s) = None.
Proof.
  unfold before. destruct (find sep s) as [i|] eqn:Hi; [|done].
  revert i Hi; induction s as [|c s IH]; intros i Hi.
  - destruct i; simpl; by destruct sep.
  - cbn [find] in Hi. destruct (startswith sep (String c s)) eqn:E.
    + injection Hi as <-. simpl. by destruct sep.
    + destruct (find sep s) as [j|] eqn:Hj; [|discriminate].
      injection Hi as <-. cbn [take find].
      destruct (startswith sep (String c (take j s))) eqn:E'.
      * apply (startswith_take _ (S j) (String c s)) in E'. congruence.
      * by rewrite (IH j).
Qed.

Lemma contains_before sep (Hsep : sep <> EmptyString) s :
  contains sep (before sep s) = false.
Proof. unfold contains. by rewrite find_before. Qed.

(** A text that contains [sep] is cut around its first occurrence. *)
Lemma before_sep_after sep s :
  contains sep s = true -> s = before sep s +:+ sep +:+ after sep s.
Proof.
  unfold contains, before, after.
  destruct (find sep s) as [i|] eqn:Hi; [|discriminate]. intros _.
  revert i Hi; induction s as [|c s IH]; intros i Hi.
  - simpl in Hi. destruct (startswith sep "") eqn:E; [|discriminate].
    injection Hi as <-. by apply startswith_eq in E.
  - cbn [find] in Hi. destruct (startswith sep (String c s)) eqn:E.
    + injection Hi as <-. by apply startswith_eq in E.
    + destruct (find sep s) as [j|] eqn:Hj; [|discriminate].
      injection Hi as <-. cbn [take drop Nat.add].
      unfold String.app; simpl. f_equal. by apply IH.
Qed.

End StrFacts.

(** * Facts on dictionaries *)

Section Dict.

Implicit Types (d : dict) (k v : string) (l : list (string * string)).

Lemma dict_set_keys d k v :
  map fst (dict_set d k v) =
    if decide (k ∈ map fst d) then map fst d else map fst d ++ [k].
Proof.
  induction d as [|[k' v'] d IH]; cbn [dict_set map fst].
  { case_decide as H; [by apply elem_of_nil in H | done]. }
  destruct (String.eqb_spec k' k) as [->|Hne]; cbn [map fst].
  - clear IH. case_decide as H; [done|]. destruct H. by left.
  - rewrite IH. destruct (decide (k ∈ map fst d)) as [Hin|Hin].
    + case_decide as H; [done|]. destruct H. by right.
    + case_decide as H; [|done].
      apply elem_of_cons in H as [->|]; done.
Qed.

Lemma dict_get_set d k v k' :
  dict_get (dict_set d k v) k' =
    if String.eqb k k' then Some v else dict_get d k'.
Proof.
  induction d as [|[k0 v0] d IH]; simpl; [done|].
  destruct (String.eqb_spec k0 k) as [->|Hne]; simpl.
  - by destruct (String.eqb k k').
  - rewrite IH. destruct (String.eqb_spec k0 k') as [->|]; [|done].
    by destruct (String.eqb_spec k k') as [->|].
Qed.

Lemma dict_set_fresh d k v :
  k ∉ map fst d -> dict_set d k v = d ++ [(k, v)].
Proof.
  induction d as [|[k' v'] d IH]; simpl; [done|]. intros Hnin.
  apply not_elem_of_cons in Hnin as [Hne Hnin].
  destruct (String.eqb_spec k' k) as [->|_]; [done|].
  f_equal. by apply IH.
Qed.

Lemma dict_of_items_snoc l k v :
  dict_of_items (l ++ [(k, v)]) = dict_set (dict_of_items l) k v.
Proof. unfold dict_of_items. by rewrite fold_left_app. Qed.

Lemma first_occurrences_elem (x : string) (ks : list string) :
  x ∈ first_occurrences ks <-> x ∈ ks.
Proof.
  induction ks as [|y ks IH]; simpl; [done|].
  rewrite !elem_of_cons, <- IH, !list_elem_of_In, filter_In.
  destruct (String.eqb_spec y x) as [->|]; simpl; intuition congruence.
Qed.

Lemma first_occurrences_snoc (ks : list string) (k : string) :
  first_occurrences (ks ++ [k]) =
    if decide (k ∈ ks) then first_occurrences ks
    else first_occurrences ks ++ [k].
Proof.
  induction ks as [|y ks IH]; cbn [first_occurrences app].
  { case_decide as H; [by apply elem_of_nil in H | done]. }
  rewrite IH. destruct (decide (k ∈ ks)) as [Hin|Hin].
  - case_decide as H; [done|]. destruct H. by right.
  - rewrite List.filter_app. cbn [List.filter].
    destruct (String.eqb_spec y k) as [->|Hne]; cbn [negb].
    + case_decide as H; [|destruct H; by left].
      by rewrite app_nil_r.
    + case_decide as H; [|done].
      apply elem_of_cons in H as [->|]; done.
Qed.

Lemma NoDup_List_filter {A} (f : A -> bool) (xs : list A) :
  NoDup xs -> NoDup (List.filter f xs).
Proof.
  induction 1 as [|x xs Hx _ IH]; simpl; [constructor|].
  destruct (f x); [|done]. constructor; [|done].
  rewrite list_elem_of_In, filter_In, <- list_elem_of_In. tauto.
Qed.

Lemma first_occurrences_NoDup (ks : list string) : NoDup (first_occurrences ks).
Proof.
  induction ks as [|y ks IH]; simpl; constructor.
  - rewrite list_elem_of_In, filter_In. intros [_ H].
    by rewrite String.eqb_refl in H.
  - by apply NoDup_List_filter.
Qed.

(** A key keeps the place of its first assignment. *)
Lemma dict_of_items_keys l :
  map fst (dict_of_items l) = first_occurrences (map fst l).
Proof.
  induction l as [|[k v] l IH] using rev_ind; [done|].
  rewrite dict_of_items_snoc, dict_set_keys, map_app. cbn [map fst].
  rewrite first_occurrences_snoc, IH.
  destruct (decide (k ∈ first_occurrences (map fst l))) as [H|H];
    destruct (decide (k ∈ map fst l)) as [H'|H']; try done;
    rewrite first_occurrences_elem in H; done.
Qed.

(** A key holds the value of its last assignment. *)
Lemma dict_of_items_get l k :
  dict_get (dict_of_items l) k = dict_get (rev l) k.
Proof.
  induction l as [|[k' v'] l IH] using rev_ind; [done|].
  rewrite dict_of_items_snoc, dict_get_set, rev_app_distr. simpl.
  by rewrite IH.
Qed.

Lemma dict_of_items_NoDup l : NoDup (map fst (dict_of_items l)).
Proof. rewrite dict_of_items_keys. apply first_occurrences_NoDup. Qed.

(** Distinct keys: the dictionary lists the pairs as they came. *)
Lemma dict_of_items_distinct l :
  NoDup (map fst l) -> dict_of_items l = l.
Proof.
  induction l as [|[k v] l IH] using rev_ind; [done|].
  rewrite map_app. simpl. intros Hnd.
  rewrite dict_of_items_snoc.
  apply NoDup_app in Hnd as (Hl & Hk & _).
  rewrite IH by done. apply dict_set_fresh.
  intros Hin. apply (Hk k); [done | by left].
Qed.

Lemma dict_of_items_nil l : dict_of_items l = [] <-> l = [].
Proof.
  split; [|by intros ->].
  destruct l as [|[k v] l] using rev_ind; [done|].
  rewrite dict_of_items_snoc. by destruct (dict_of_items l) as [|[k' v'] d];
    simpl; [|destruct (String.eqb k' k)].
Qed.

End Dict.

(** * Facts on the parser *)

Section Parser.

Import StrFacts.

Lemma parse_metadata_items ls d :
  parse_metadata ls d =
    Returned (fold_left (fun d kv => dict_set d (fst kv) (snd kv))
                (colon_items ls) d).
Proof.
  revert d; induction ls as [|line ls IH]; intros d; [done|].
  cbn [parse_metadata]. unfold colon_items. cbn [List.filter].
  destruct (Str.contains ":" line) eqn:Hc; [|apply IH].
  rewrite (split_once ":") by done. cbn [map fold_left]. apply IH.
Qed.

(** On a [str] the [try] block raises nothing. *)
Lemma parse_sections_str fi text :
  parse_sections fi (PyStr text) =
    Returned (if has_markers text then structured_record fi text
              else sentinel_record fi "Note" "Auto-generated transcript"
                     (PyStr text)).
Proof.
  unfold parse_sections, has_markers.
  destruct (Str.contains "[METADATA]" text) eqn:Hm; [|done].
  destruct (Str.contains "[TRANSCRIPT]" text) eqn:Ht; [|done].
  cbn [andb]. unfold getitem.
  rewrite (split_second "[METADATA]") by done. cbn [obind].
  rewrite (split_head "[TRANSCRIPT]") by done. cbn [obind].
  rewrite (split_second "[TRANSCRIPT]") by done. cbn [obind].
  rewrite parse_metadata_items. done.
Qed.

Lemma build_file_info_Returned w path fi :
  build_file_info w path = Returned fi ->
  exists n, getsize w path = Returned n.
Proof. unfold build_file_info. destruct (getsize w path); [eauto | done]. Qed.

Lemma parse_response_str w text path fi st :
  build_file_info w path = Returned fi ->
  _parse_response w (PyStr text) path st =
    (Returned (if has_markers text then structured_record fi text
               else sentinel_record fi "Note" "Auto-generated transcript"
                      (PyStr text)), st).
Proof.
  intros Hfi. unfold _parse_response. by rewrite Hfi, parse_sections_str.
Qed.

(** When [os.path.getsize] raises, the handler reads [file_info] unbound. *)
Lemma parse_response_unbound w response_text path e st :
  getsize w path = Raised e ->
  _parse_response w response_text path st =
    (Raised (Exn "UnboundLocalError"
       "cannot access local variable 'file_info' where it is not associated with a value"),
     State (files st) (stdout st ++ ["Error parsing response: " +:+ exn_msg e])).
Proof.
  intros He. unfold _parse_response, build_file_info. by rewrite He.
Qed.

(** With [file_info] bound the parser returns a record, whatever the text. *)
Lemma parse_response_bound w response_text path fi st :
  build_file_info w path = Returned fi ->
  exists data out,
    _parse_response w response_text path st
      = (Returned data, State (files st) (stdout st ++ out)).
Proof.
  intros Hfi. unfold _parse_response. rewrite Hfi.
  destruct (parse_sections fi response_text) as [data|e].
  - exists data, []. rewrite app_nil_r. by destruct st.
  - eexists _, [_]. reflexivity.
Qed.

End Parser.

(** * Facts on the batch loop *)

Section Batch.

Variable w : world.

Lemma transcribe_audio_run file_path st :
  exists r out,
    transcribe_audio w file_path true st
      = (Returned r, State (files st) (stdout st ++ out))
    /\ (collaborator_fails w file_path = true -> r = None)
    /\ (collaborator_fails w file_path = false ->
        (exists n, getsize w file_path = Returned n) -> is_Some r).
Proof.
  unfold transcribe_audio, collaborator_fails, collaborator_call.
  unfold bind, try_except, print, lift, ret.
  set (l1 := "Uploading file: " +:+ file_path).
  set (l2 := "File uploaded successfully. Starting transcription...").
  set (l3 := "Transcription completed!").
  destruct (files_upload w file_path) as [h|e]; cbn [obind fst snd files stdout].
  2:{ exists None, [l1; "Error during transcription: " +:+ exn_msg e].
      rewrite <- app_assoc. by repeat split. }
  destruct (generate_content w model _get_detailed_prompt h) as [v|e];
    cbn [fst snd files stdout].
  2:{ exists None, [l1; l2; "Error during transcription: " +:+ exn_msg e].
      rewrite <- !app_assoc. by repeat split. }
  destruct (getsize w file_path) as [n|e] eqn:Hsz.
  - destruct (build_file_info w file_path) as [fi|e] eqn:Hfi.
    2:{ unfold build_file_info in Hfi. by rewrite Hsz in Hfi. }
    destruct (parse_response_bound w v file_path fi
                (State (files st) (((stdout st ++ [l1]) ++ [l2]) ++ [l3])) Hfi)
      as (data & out & ->).
    cbn [files stdout].
    exists (Some data), ([l1; l2; l3] ++ out). rewrite <- !app_assoc.
    split; [reflexivity|]. split; [done | by eexists].
  - rewrite (parse_response_unbound w v file_path e _ Hsz).
    cbn [files stdout].
    eexists None, [l1; l2; l3; _; _]. rewrite <- !app_assoc.
    split; [reflexivity|]. split; [done|]. by intros _ [n ?].
Qed.

Lemma to_notion_markdown_run data p st :
  to_notion_markdown w data (Some p) st =
    match open_w w p with
    | Returned _ =>
        (Returned p,
         State (<[p := notion_markdown data]> (files st))
           (stdout st ++ ["Notion Markdown exported to: " +:+ p]))
    | Raised e => (Raised e, st)
    end.
Proof.
  unfold to_notion_markdown, bind, lift, write_file, print, ret.
  by destruct (open_w w p).
Qed.

End Batch.

Section BatchLoop.

Variables (w : world) (output_directory : string).

Lemma batch_iteration_skip entry st :
  has_audio_suffix (d_path entry) = false ->
  batch_iteration w output_directory entry st = (Returned tt, st).
Proof. intros H. unfold batch_iteration. by rewrite H. Qed.

Lemma batch_iteration_run entry st :
  has_audio_suffix (d_path entry) = true ->
  exists fs' more,
    batch_iteration w output_directory entry st
      = (Returned tt, State fs' (stdout st ++ more))
    /\ "Processing: " +:+ Path.name (d_path entry) ∈ more
    /\ (fs' = files st \/
        exists c,
          fs' = <[artifact_path output_directory (d_path entry) := c]> (files st))
    /\ (processing_succeeds w output_directory (d_path entry) = true ->
        exists c,
          fs' = <[artifact_path output_directory (d_path entry) := c]> (files st))
    /\ (collaborator_fails w (d_path entry) = true -> fs' = files st).
Proof.
  intros H. unfold batch_iteration. rewrite H.
  unfold bind at 1 2 3, print. cbn [files stdout].
  set (art := artifact_path output_directory (d_path entry)).
  set (b1 := nl +:+ Str.repeat "=" 50).
  set (b2 := "Processing: " +:+ Path.name (d_path entry)).
  set (b3 := Str.repeat "=" 50).
  set (st1 := State (files st) (((stdout st ++ [b1]) ++ [b2]) ++ [b3])).
  unfold try_except, bind.
  destruct (transcribe_audio_run w (d_path entry) st1)
    as (r & out & -> & Hfail & Hok).
  subst st1. cbn [files stdout].
  assert (Hb2 : forall tail, b2 ∈ [b1; b2; b3] ++ tail).
  { intros tail. apply elem_of_app. left. rewrite !elem_of_cons. auto. }
  assert (Hsucc :
            processing_succeeds w output_directory (d_path entry) = true ->
            is_Some r /\ exists u, open_w w art = Returned u).
  { unfold processing_succeeds. unfold collaborator_fails in Hok. fold art.
    destruct (collaborator_call w (d_path entry)); [|done].
    destruct (getsize w (d_path entry)) as [n|]; [|done].
    destruct (open_w w art) as [u|]; [|done].
    intros _. split; [apply Hok; eauto | eauto]. }
  destruct r as [data|].
  - rewrite to_notion_markdown_run.
    destruct (open_w w art) as [u|e] eqn:Hopen; cbn [files stdout].
    + unfold ret. eexists _, ([b1; b2; b3] ++ out ++ [_]).
      split; [by rewrite <- !app_assoc|].
      split; [apply Hb2|]. split; [eauto|]. split; [eauto|].
      intros Hf. by specialize (Hfail Hf).
    + unfold print. cbn [files stdout].
      eexists _, ([b1; b2; b3] ++ out ++ [_]).
      split; [by rewrite <- !app_assoc|].
      split; [apply Hb2|]. split; [eauto|]. split; [|done].
      intros Hs. destruct (Hsucc Hs) as [_ [u Hu]]. congruence.
  - unfold ret. eexists _, ([b1; b2; b3] ++ out).
    split; [by rewrite <- !app_assoc|].
    split; [apply Hb2|]. split; [eauto|]. split; [|done].
    intros Hs. destruct (Hsucc Hs) as [[data Hd] _]. congruence.
Qed.

Lemma for_each_cons {A} (x : A) l body st :
  for_each (x :: l) body st =
    match body x st with
    | (Returned _, st') => for_each l body st'
    | (Raised e, st') => (Raised e, st')
    end.
Proof. reflexivity. Qed.

(** The loop runs over every entry: no round raises, the rounds of entries
    without an audio suffix change nothing. *)
Lemma batch_loop_run entries st :
  exists fs' more,
    batch_loop w output_directory entries st
      = (Returned tt, State fs' (stdout st ++ more))
    /\ (forall e,
          e ∈ entries -> has_audio_suffix (d_path e) = true ->
          "Processing: " +:+ Path.name (d_path e) ∈ more)
    /\ (forall q, is_Some (files st !! q) -> is_Some (fs' !! q))
    /\ (forall e,
          e ∈ entries -> has_audio_suffix (d_path e) = true ->
          processing_succeeds w output_directory (d_path e) = true ->
          is_Some (fs' !! artifact_path output_directory (d_path e)))
    /\ (forall p,
          (forall e,
             e ∈ entries -> has_audio_suffix (d_path e) = true ->
             artifact_path output_directory (d_path e) = p ->
             collaborator_fails w (d_path e) = true) ->
          fs' !! p = files st !! p).
Proof.
  unfold batch_loop. revert st.
  induction entries as [|x l IH]; intros st.
  { exists (files st), []. rewrite app_nil_r. destruct st.
    repeat split; try done; intros e He; by apply elem_of_nil in He. }
  rewrite for_each_cons.
  destruct (has_audio_suffix (d_path x)) eqn:Hx.
  - destruct (batch_iteration_run x st Hx)
      as (fs1 & more1 & -> & Hline & Hfs & Hsucc & Hfail).
    destruct (IH (State fs1 (stdout st ++ more1)))
      as (fs2 & more2 & -> & Hlines & Hmono & Hok & Hkeep).
    cbn [files stdout] in *.
    exists fs2, (more1 ++ more2). split; [by rewrite app_assoc|].
    assert (Hmono1 : forall q, is_Some (files st !! q) -> is_Some (fs1 !! q)).
    { intros q Hq. destruct Hfs as [->|[c ->]]; [done|].
      destruct (decide (artifact_path output_directory (d_path x) = q)) as [->|Hne].
      - rewrite lookup_insert_eq. eauto.
      - by rewrite lookup_insert_ne. }
    split; [|split; [|split]].
    + intros e [->|He]%elem_of_cons Ha; apply elem_of_app; [by left|].
      right. eauto.
    + eauto.
    + intros e [->|He]%elem_of_cons Ha Hs; [|eauto].
      apply Hmono. destruct (Hsucc Hs) as [c ->].
      rewrite lookup_insert_eq. eauto.
    + intros p Hp. rewrite Hkeep.
      2:{ intros e He. apply Hp. by right. }
      destruct (decide (artifact_path output_directory (d_path x) = p)) as [Heq|Hne].
      * rewrite Hfail; [done|]. apply Hp; [left | done | done].
      * destruct Hfs as [->|[c ->]]; [done|]. by rewrite lookup_insert_ne.
  - rewrite batch_iteration_skip by done.
    destruct (IH st) as (fs2 & more2 & -> & Hlines & Hmono & Hok & Hkeep).
    exists fs2, more2. split; [done|].
    split; [|split; [|split]].
    + intros e [->|He]%elem_of_cons Ha; [congruence | eauto].
    + done.
    + intros e [->|He]%elem_of_cons Ha Hs; [congruence | eauto].
    + intros p Hp. apply Hkeep. intros e He. apply Hp. by right.
Qed.

Lemma batch_loop_filter entries st :
  batch_loop w output_directory entries st =
    batch_loop w output_directory
      (List.filter (fun e => has_audio_suffix (d_path e)) entries) st.
Proof.
  unfold batch_loop. revert st.
  induction entries as [|x l IH]; intros st; [done|].
  cbn [List.filter]. destruct (has_audio_suffix (d_path x)) eqn:Hx.
  - rewrite !for_each_cons.
    destruct (batch_iteration w output_directory x st) as [[[]|e] st']; [|done].
    apply IH.
  - rewrite for_each_cons, batch_iteration_skip by done. apply IH.
Qed.

End BatchLoop.

(** * The primitives on sample inputs *)

Example split_two : Str.split "," None "a,b,,c" = ["a"; "b"; ""; "c"].
Proof. reflexivity. Qed.

Example split_max_one : Str.split ":" (Some 1) "k: v: w" = ["k"; " v: w"].
Proof. reflexivity. Qed.

Example split_whole : Str.split "abc" None "abc" = [""; ""].
Proof. reflexivity. Qed.

Example strip_both : Str.strip (nl +:+ "  a b " +:+ nl) = "a b".
Proof. reflexivity. Qed.

Example suffix_upper : Str.lower (Path.suffix "dir/Take.One.MP3") = ".mp3".
Proof. reflexivity. Qed.

Example suffix_hidden : Path.suffix "dir/.mp3" = "".
Proof. reflexivity. Qed.

Example stem_name : Path.stem "dir/a.b/song.flac" = "song".
Proof. reflexivity. Qed.

Example name_trailing : Path.name "dir/sub/./" = "sub".
Proof. reflexivity. Qed.

(** * Further facts used by the main results *)

Lemma colon_items_nil ls :
  colon_items ls = [] <->
  forall line, line ∈ ls -> Str.contains ":" line = false.
Proof.
  unfold colon_items. induction ls as [|l ls IH]; cbn [List.filter].
  - split; [|done]. intros _ line H. by apply elem_of_nil in H.
  - destruct (Str.contains ":" l) eqn:Hl; cbn [map].
    + split; [done|]. intros H. specialize (H l). rewrite Hl in H.
      discriminate H. by left.
    + rewrite IH. split.
      * intros H line [->|Hin]%elem_of_cons; auto.
      * intros H line Hin. apply H. by right.
Qed.

Lemma dict_get_elem (d : dict) k v :
  NoDup (map fst d) -> (k, v) ∈ d <-> dict_get d k = Some v.
Proof.
  induction d as [|[k' v'] d IH]; cbn [map fst dict_get].
  - intros _. split; [|done]. intros H. by apply elem_of_nil in H.
  - intros [Hk Hd]%NoDup_cons. rewrite elem_of_cons, (IH Hd).
    destruct (String.eqb_spec k' k) as [->|Hne].
    + split; [|intros [= ->]; by left].
      intros [[= ->]|Hget]; [done|].
      apply (IH Hd) in Hget. destruct Hk.
      apply list_elem_of_fmap. by exists (k, v).
    + split; [|by right]. intros [[= -> ->]|]; done.
Qed.

Lemma transcript_marker_first_has_markers text :
  transcript_marker_first text = true -> has_markers text = true.
Proof.
  unfold transcript_marker_first, has_markers, Str.contains.
  destruct (Str.find "[TRANSCRIPT]" text); [|done].
  by destruct (Str.find "[METADATA]" text).
Qed.

Lemma transcript_section_single_marker text :
  Str.contains "[TRANSCRIPT]" (Str.after "[TRANSCRIPT]" text) = false ->
  transcript_section text = Str.strip (Str.after "[TRANSCRIPT]" text).
Proof.
  unfold transcript_section, Str.contains, Str.before.
  by destruct (Str.find "[TRANSCRIPT]" (Str.after "[TRANSCRIPT]" text)).
Qed.

Lemma batch_transcribe_directory_loop w input_directory output_directory
    entries st :
  mkdir_exist_ok w output_directory = Returned tt ->
  new_client w = Returned tt ->
  iterdir w input_directory = Returned entries ->
  batch_transcribe_directory w input_directory output_directory st =
    batch_loop w output_directory entries st.
Proof.
  intros Hm Hc Hi. unfold batch_transcribe_directory, bind, lift.
  by rewrite Hm, Hc, Hi.
Qed.

Lemma has_audio_suffix_spec file_path :
  has_audio_suffix file_path = true <->
  Str.lower (Path.suffix file_path) ∈ audio_extensions.
Proof.
  unfold has_audio_suffix. rewrite existsb_exists. split.
  - intros (ext & Hin & ->%String.eqb_eq). by apply list_elem_of_In.
  - intros Hin. eexists. split; [by apply list_elem_of_In|].
    apply String.eqb_refl.
Qed.

(** * The parser *)

(** C1, as stated, fails: on the text of the specification's own example,
    where [[TRANSCRIPT]] comes first, the parser splits the text and returns a
    record that is not the fallback record. *)
Lemma reversed_markers_are_split :
  transcript_marker_first Demo.reversed_text = true
  /\ fst (_parse_response Demo.w (PyStr Demo.reversed_text) "a.mp3" Demo.st)
     = Returned {| file_info := Demo.fi;
                   metadata := [("bar", "baz")];
                   transcript := PyStr (lines ["foo"; "[METADATA]"; "bar: baz"]);
                   raw_response := PyStr Demo.reversed_text |}
  /\ fst (_parse_response Demo.w (PyStr Demo.reversed_text) "a.mp3" Demo.st)
     <> Returned (sentinel_record Demo.fi "Note" "Auto-generated transcript"
                    (PyStr Demo.reversed_text)).
Proof. vm_compute. repeat split; discriminate. Qed.

(** C1, amended: the parser takes the fallback path exactly when one of the
    two markers is missing from the text. When both occur it splits the text,
    in whatever order they occur: a text with [[TRANSCRIPT]] first is split
    too. *)
Theorem fallback_iff_marker_missing w text path fi st :
  build_file_info w path = Returned fi ->
  fst (_parse_response w (PyStr text) path st)
    = Returned (if has_markers text then structured_record fi text
                else sentinel_record fi "Note" "Auto-generated transcript"
                       (PyStr text))
  /\ (transcript_marker_first text = true ->
      fst (_parse_response w (PyStr text) path st)
        = Returned (structured_record fi text)).
Proof.
  intros Hfi. rewrite (parse_response_str w text path fi st Hfi).
  split; [done|]. intros H%transcript_marker_first_has_markers.
  by rewrite H.
Qed.

Lemma fallback_iff_marker_missing_witness :
  fst (_parse_response Demo.w (PyStr Demo.reversed_text) "a.mp3" Demo.st)
    = Returned (structured_record Demo.fi Demo.reversed_text).
Proof.
  apply (fallback_iff_marker_missing Demo.w Demo.reversed_text "a.mp3"
           Demo.fi Demo.st); reflexivity.
Defined.

(** C2, as stated, fails: with both markers and no colon between them the
    record's metadata is empty. *)
Lemma metadata_empty_without_colon :
  has_markers Demo.no_colon_text = true
  /\ fst (_parse_response Demo.w (PyStr Demo.no_colon_text) "a.mp3" Demo.st)
     = Returned {| file_info := Demo.fi;
                   metadata := [];
                   transcript := PyStr "hi";
                   raw_response := PyStr Demo.no_colon_text |}.
Proof. vm_compute. by split. Qed.

(** C2, amended: on the fallback path the metadata is exactly one sentinel
    entry; on the structured path it is exactly the parsed key/value pairs,
    and it is empty exactly when no line of the block contains a colon. *)
Theorem metadata_of_every_text w text path fi st :
  build_file_info w path = Returned fi ->
  exists data,
    fst (_parse_response w (PyStr text) path st) = Returned data
    /\ (has_markers text = false ->
        metadata data = [("Note", "Auto-generated transcript")])
    /\ (has_markers text = true ->
        metadata data
          = dict_of_items
              (colon_items (Str.split nl None (metadata_section text)))
        /\ (metadata data = [] <->
            forall line,
              line ∈ Str.split nl None (metadata_section text) ->
              Str.contains ":" line = false)).
Proof.
  intros Hfi. rewrite (parse_response_str w text path fi st Hfi).
  eexists. split; [reflexivity|].
  split; intros ->; [done|]. split; [done|].
  cbn [metadata structured_record].
  by rewrite dict_of_items_nil, colon_items_nil.
Qed.

Lemma metadata_of_every_text_witness :
  exists data,
    fst (_parse_response Demo.w (PyStr Demo.no_colon_text) "a.mp3" Demo.st)
      = Returned data
    /\ metadata data = [].
Proof.
  destruct (metadata_of_every_text Demo.w Demo.no_colon_text "a.mp3" Demo.fi
              Demo.st eq_refl) as (data & Hrun & _ & Hs).
  exists data. split; [exact Hrun|].
  destruct (Hs eq_refl) as [Hmd _]. rewrite Hmd. reflexivity.
Defined.

(** C3: when the size of the file cannot be read, the handler of
    [_parse_response] raises instead of returning the degraded record. *)
Theorem parse_response_raises_on_missing_file :
  fst (_parse_response Demo.w (PyStr "hello") "missing.mp3" Demo.st)
    = Raised (Exn "UnboundLocalError"
        "cannot access local variable 'file_info' where it is not associated with a value").
Proof.
  by rewrite (parse_response_unbound Demo.w _ "missing.mp3"
                (Exn "FileNotFoundError"
                   "[Errno 2] No such file or directory: 'missing.mp3'")).
Qed.

(** C4: with a second [[TRANSCRIPT]] marker the transcript stops at that
    marker; the text after it is lost. *)
Theorem transcript_cut_at_second_marker :
  has_markers Demo.two_transcript_markers = true
  /\ transcript_marker_first Demo.two_transcript_markers = false
  /\ Str.strip (Str.after "[TRANSCRIPT]" Demo.two_transcript_markers)
     = "foo [TRANSCRIPT] bar"
  /\ fst (_parse_response Demo.w (PyStr Demo.two_transcript_markers) "a.mp3"
            Demo.st)
     = Returned {| file_info := Demo.fi;
                   metadata := [("A", "b")];
                   transcript := PyStr "foo";
                   raw_response := PyStr Demo.two_transcript_markers |}.
Proof. vm_compute. by repeat split. Qed.

(** C6: on the structured path the metadata is built from the lines of the
    block: a line with a colon is cut at its first colon, both sides are
    stripped and assigned as key and value, a line without a colon adds
    nothing, and pairs with distinct keys are listed in line order. The
    documented example gives the documented record. *)
Theorem metadata_block_line_by_line w text path fi st :
  build_file_info w path = Returned fi ->
  has_markers text = true ->
  exists data,
    fst (_parse_response w (PyStr text) path st) = Returned data
    /\ metadata data
       = dict_of_items (colon_items (Str.split nl None (metadata_section text)))
    /\ (NoDup (map fst (colon_items (Str.split nl None (metadata_section text)))) ->
        metadata data
          = colon_items (Str.split nl None (metadata_section text)))
    /\ (forall ls line,
          colon_items (line :: ls)
            = if Str.contains ":" line then colon_item line :: colon_items ls
              else colon_items ls)
    /\ (forall line,
          Str.contains ":" line = true ->
          line = Str.before ":" line +:+ ":" +:+ Str.after ":" line
          /\ Str.contains ":" (Str.before ":" line) = false
          /\ colon_item line
             = (Str.strip (Str.before ":" line), Str.strip (Str.after ":" line)))
    /\ (text = Demo.structured_text ->
        metadata data = [("Total Speakers", "2"); ("Audio Quality", "good")]
        /\ transcript data = PyStr "Hello world").
Proof.
  intros Hfi Hm. rewrite (parse_response_str w text path fi st Hfi), Hm.
  eexists. split; [reflexivity|]. cbn [metadata transcript structured_record].
  split; [done|]. split; [apply dict_of_items_distinct|].
  split.
  { intros ls line. unfold colon_items. cbn [List.filter].
    by destruct (Str.contains ":" line). }
  split.
  { intros line Hc. split; [by apply StrFacts.before_sep_after|].
    split; [by apply StrFacts.contains_before | done]. }
  intros ->. by vm_compute.
Qed.

Lemma metadata_block_line_by_line_witness :
  exists data,
    fst (_parse_response Demo.w (PyStr Demo.structured_text) "a.mp3" Demo.st)
      = Returned data
    /\ metadata data = [("Total Speakers", "2"); ("Audio Quality", "good")]
    /\ transcript data = PyStr "Hello world".
Proof.
  destruct (metadata_block_line_by_line Demo.w Demo.structured_text "a.mp3"
              Demo.fi Demo.st eq_refl eq_refl)
    as (data & Hrun & _ & _ & _ & _ & Hex).
  exists data. split; [exact Hrun | exact (Hex eq_refl)].
Defined.

(** C7: a fallback record carries the whole input as transcript and as raw
    response and one sentinel entry: key [Note] when a marker is missing, key
    [Error] when the slicing and parsing raised. *)
Theorem fallback_records w response_text path fi st :
  build_file_info w path = Returned fi ->
  (forall text,
     response_text = PyStr text -> has_markers text = false ->
     exists data,
       fst (_parse_response w response_text path st) = Returned data
       /\ file_info data = fi
       /\ metadata data = [("Note", "Auto-generated transcript")]
       /\ transcript data = response_text
       /\ raw_response data = response_text)
  /\ (forall e,
        parse_sections fi response_text = Raised e ->
        exists data,
          fst (_parse_response w response_text path st) = Returned data
          /\ file_info data = fi
          /\ metadata data = [("Error", "Failed to parse structure")]
          /\ transcript data = response_text
          /\ raw_response data = response_text)
  /\ "Note" <> "Error".
Proof.
  intros Hfi. split; [|split; [|done]].
  - intros text -> Hm.
    rewrite (parse_response_str w text path fi st Hfi), Hm.
    by eexists.
  - intros e He. unfold _parse_response. rewrite Hfi, He.
    by eexists.
Qed.

Lemma fallback_records_witness :
  exists data,
    fst (_parse_response Demo.w PyNone "a.mp3" Demo.st) = Returned data
    /\ file_info data = Demo.fi
    /\ metadata data = [("Error", "Failed to parse structure")]
    /\ transcript data = PyNone
    /\ raw_response data = PyNone.
Proof.
  destruct (fallback_records Demo.w PyNone "a.mp3" Demo.fi Demo.st eq_refl)
    as (_ & Herr & _).
  exact (Herr _ eq_refl).
Defined.

(** C10: a key assigned by several lines of the block has one entry in the
    metadata, at the place of its first line and with the value of its last
    line. *)
Theorem repeated_key_last_value_first_place w text path fi st :
  build_file_info w path = Returned fi ->
  has_markers text = true ->
  exists data,
    fst (_parse_response w (PyStr text) path st) = Returned data
    /\ NoDup (map fst (metadata data))
    /\ map fst (metadata data)
       = first_occurrences
           (map fst (colon_items (Str.split nl None (metadata_section text))))
    /\ (forall k v,
          (k, v) ∈ metadata data <->
          dict_get
            (rev (colon_items (Str.split nl None (metadata_section text)))) k
            = Some v).
Proof.
  intros Hfi Hm. rewrite (parse_response_str w text path fi st Hfi), Hm.
  eexists. split; [reflexivity|]. cbn [metadata structured_record].
  split; [apply dict_of_items_NoDup|].
  split; [apply dict_of_items_keys|].
  intros k v. rewrite dict_get_elem by apply dict_of_items_NoDup.
  by rewrite dict_of_items_get.
Qed.

Lemma repeated_key_last_value_first_place_witness :
  exists data,
    fst (_parse_response Demo.w (PyStr Demo.mixed_text) "a.mp3" Demo.st)
      = Returned data
    /\ map fst (metadata data) = ["k"; "j"]
    /\ ("k", "3:4") ∈ metadata data.
Proof.
  destruct (repeated_key_last_value_first_place Demo.w Demo.mixed_text "a.mp3"
              Demo.fi Demo.st eq_refl eq_refl)
    as (data & Hrun & _ & Hkeys & Hget).
  exists data. split; [exact Hrun|]. split; [exact Hkeys|].
  apply Hget. reflexivity.
Defined.

(** * The Markdown renderer *)

(** C9: rendering a record twice to the same explicit path that can be opened
    returns that path both times and leaves the same content in the file both
    times; the second call changes no file. *)
Theorem markdown_render_twice w data path st :
  open_w w path = Returned tt ->
  let first := to_notion_markdown w data (Some path) st in
  let second := to_notion_markdown w data (Some path) (snd first) in
  fst first = Returned path
  /\ fst second = Returned path
  /\ files (snd first) !! path = Some (notion_markdown data)
  /\ files (snd second) !! path = Some (notion_markdown data)
  /\ files (snd second) = files (snd first).
Proof.
  intros Hopen. cbn zeta. rewrite !to_notion_markdown_run, Hopen.
  cbn [fst snd files]. rewrite insert_insert_eq, lookup_insert_eq. done.
Qed.

Lemma markdown_render_twice_witness :
  files (snd (to_notion_markdown Demo.w
                (structured_record Demo.fi Demo.structured_text)
                (Some "out/a.md")
                (snd (to_notion_markdown Demo.w
                        (structured_record Demo.fi Demo.structured_text)
                        (Some "out/a.md") Demo.st))))
    !! "out/a.md"
  = Some (notion_markdown (structured_record Demo.fi Demo.structured_text)).
Proof.
  apply (markdown_render_twice Demo.w
           (structured_record Demo.fi Demo.structured_text) "out/a.md" Demo.st).
  reflexivity.
Defined.

(** * The batch loop *)

(** C5, as stated, fails: the subdirectory [album.mp3] of the listing is
    processed like a file; the loop announces it and tries to upload it. *)
Lemma subdirectory_with_audio_suffix_is_processed :
  Dirent "in/album.mp3" true ∈ Demo.listing
  /\ "Processing: album.mp3"
     ∈ stdout (snd (batch_transcribe_directory Demo.w "in" "out" Demo.st))
  /\ "Uploading file: in/album.mp3"
     ∈ stdout (snd (batch_transcribe_directory Demo.w "in" "out" Demo.st)).
Proof.
  split; [|split]; apply list_elem_of_In; vm_compute; tauto.
Qed.

(** C5, amended: the batch operation processes exactly the entries of the
    listing whose suffix, lowercased, is one of the six audio extensions, and
    skips every other entry. Only the name decides: a subdirectory with such a
    suffix is processed too. *)
Theorem batch_selects_by_suffix w input_directory output_directory entries st :
  mkdir_exist_ok w output_directory = Returned tt ->
  new_client w = Returned tt ->
  iterdir w input_directory = Returned entries ->
  batch_transcribe_directory w input_directory output_directory st
    = batch_loop w output_directory
        (List.filter (fun e => has_audio_suffix (d_path e)) entries) st
  /\ (forall e,
        e ∈ entries ->
        Str.lower (Path.suffix (d_path e)) ∈ audio_extensions ->
        "Processing: " +:+ Path.name (d_path e)
          ∈ stdout (snd (batch_transcribe_directory w input_directory
                           output_directory st)))
  /\ (forall e,
        has_audio_suffix (d_path e) = true <->
        Str.lower (Path.suffix (d_path e)) ∈ audio_extensions).
Proof.
  intros Hm Hc Hi.
  rewrite (batch_transcribe_directory_loop w _ _ entries st Hm Hc Hi).
  split; [apply batch_loop_filter|]. split; [|intros e; apply has_audio_suffix_spec].
  intros e He Ha%has_audio_suffix_spec.
  destruct (batch_loop_run w output_directory entries st)
    as (fs' & more & -> & Hlines & _).
  cbn [snd stdout]. apply elem_of_app. right. by apply Hlines.
Qed.

Lemma batch_selects_by_suffix_witness :
  "Processing: album.mp3"
    ∈ stdout (snd (batch_transcribe_directory Demo.w "in" "out" Demo.st)).
Proof.
  destruct (batch_selects_by_suffix Demo.w "in" "out" Demo.listing Demo.st
              eq_refl eq_refl eq_refl) as (_ & Hlines & _).
  apply (Hlines (Dirent "in/album.mp3" true)).
  - apply list_elem_of_In. simpl. tauto.
  - apply list_elem_of_In. vm_compute. tauto.
Defined.

(** C8: no round of the batch loop stops the run. Every selected entry is
    processed, each entry whose processing succeeds has its artifact when the
    run ends, and a path is left as it was when the service call failed for
    every entry that would write it. *)
Theorem batch_isolation w input_directory output_directory entries st :
  mkdir_exist_ok w output_directory = Returned tt ->
  new_client w = Returned tt ->
  iterdir w input_directory = Returned entries ->
  let run :=
    batch_transcribe_directory w input_directory output_directory st in
  fst run = Returned tt
  /\ (forall e,
        e ∈ entries -> has_audio_suffix (d_path e) = true ->
        "Processing: " +:+ Path.name (d_path e) ∈ stdout (snd run))
  /\ (forall e,
        e ∈ entries -> has_audio_suffix (d_path e) = true ->
        processing_succeeds w output_directory (d_path e) = true ->
        is_Some (files (snd run) !! artifact_path output_directory (d_path e)))
  /\ (forall p,
        (forall e,
           e ∈ entries -> has_audio_suffix (d_path e) = true ->
           artifact_path output_directory (d_path e) = p ->
           collaborator_fails w (d_path e) = true) ->
        files (snd run) !! p = files st !! p).
Proof.
  intros Hm Hc Hi. cbn zeta.
  rewrite (batch_transcribe_directory_loop w _ _ entries st Hm Hc Hi).
  destruct (batch_loop_run w output_directory entries st)
    as (fs' & more & -> & Hlines & _ & Hok & Hkeep).
  cbn [fst snd files stdout]. split; [done|]. split; [|by split].
  intros e He Ha. apply elem_of_app. right. by apply Hlines.
Qed.

Lemma batch_isolation_witness :
  fst (batch_transcribe_directory Demo.w "in" "out" Demo.st) = Returned tt
  /\ is_Some (files (snd (batch_transcribe_directory Demo.w "in" "out" Demo.st))
                !! "out/a_transcript.md")
  /\ files (snd (batch_transcribe_directory Demo.w "in" "out" Demo.st))
       !! "out/b_transcript.md" = None
  /\ is_Some (files (snd (batch_transcribe_directory Demo.w "in" "out" Demo.st))
                !! "out/c_transcript.md").
Proof.
  destruct (batch_isolation Demo.w "in" "out" Demo.listing Demo.st
              eq_refl eq_refl eq_refl) as (Hrun & _ & Hok & Hkeep).
  split; [exact Hrun|]. split; [|split].
  - apply (Hok (Dirent "in/a.mp3" false)); [|reflexivity..].
    apply list_elem_of_In. simpl. tauto.
  - rewrite (Hkeep "out/b_transcript.md"); [reflexivity|].
    intros e He%list_elem_of_In Ha Hp. simpl in He.
    destruct He as [<-|[<-|[<-|[<-|[<-|[]]]]]];
      first [reflexivity | discriminate Ha | discriminate Hp].
  - apply (Hok (Dirent "in/c.OGG" false)); [|reflexivity..].
    apply list_elem_of_In. simpl. tauto.
Defined.

(** * More facts on the [str] methods *)

Module StrMore.
Import Str StrFacts.

Lemma app_nil_r_str (s : string) : s +:+ "" = s.
Proof. induction s as [|c s IH]; [done|]. unfold String.app in *. simpl. by rewrite IH. Qed.

Lemma app_assoc_str (a b c : string) : (a +:+ b) +:+ c = a +:+ b +:+ c.
Proof.
  induction a as [|x a IH]; [done|]. unfold String.app in *. simpl. by rewrite IH.
Qed.

Lemma app_cons_str (x : ascii) (a b : string) :
  String x a +:+ b = String x (a +:+ b).
Proof. done. Qed.

Lemma take_drop_str n s : take n s +:+ drop n s = s.
Proof.
  revert s; induction n as [|n IH]; intros [|c s]; try done.
  cbn [take drop]. rewrite app_cons_str. by rewrite IH.
Qed.

Lemma startswith_app sub r : startswith sub (sub +:+ r) = true.
Proof.
  induction sub as [|c sub IH]; [done|]. rewrite app_cons_str. simpl.
  by rewrite Ascii.eqb_refl, IH.
Qed.




Lemma lstrip_decompose s :
  exists a, s = a +:+ lstrip s /\ all_space a = true.
Proof.
  induction s as [|c s (a & Ha & Hsp)]; [by exists ""|].
  cbn [lstrip]. destruct (is_space c) eqn:Hc.
  - exists (String c a). rewrite app_cons_str, <- Ha. simpl. by rewrite Hc.
  - by exists "".
Qed.

Lemma rstrip_decompose s :
  exists b, s = rstrip s +:+ b /\ all_space b = true.
Proof.
  induction s as [|c s (b & Hb & Hsp)]; [by exists ""|].
  cbn [rstrip]. destruct (rstrip s) as [|d r] eqn:Hr.
  - change ("" +:+ b) with b in Hb. subst b.
    destruct (is_space c) eqn:Hc.
    + exists (String c s). simpl. by rewrite Hc.
    + by exists s.
  - exists b. rewrite !app_cons_str in *. by rewrite <- Hb.
Qed.

Lemma all_space_app a b :
  all_space a = true -> all_space b = true -> all_space (a +:+ b) = true.
Proof.
  induction a as [|c a IH]; [done|]. rewrite app_cons_str. simpl.
  intros [-> Ha]%andb_prop Hb. by rewrite IH.
Qed.

(** [strip] removes white space only, at the two ends. *)
Lemma strip_decompose s :
  exists a b,
    s = a +:+ strip s +:+ b /\ all_space a = true /\ all_space b = true.
Proof.
  unfold strip. destruct (lstrip_decompose s) as (a & Ha & Hsa).
  destruct (rstrip_decompose (lstrip s)) as (b & Hb & Hsb).
  exists a, b. by rewrite <- Hb, <- Ha.
Qed.

Lemma rstrip_idem s : rstrip (rstrip s) = rstrip s.
Proof.
  induction s as [|c s IH]; [done|]. cbn [rstrip].
  destruct (rstrip s) as [|d r] eqn:Hr.
  - destruct (is_space c) eqn:Hc; [done|]. simpl. by rewrite Hc.
  - cbn [rstrip]. cbn [rstrip] in IH. by rewrite IH.
Qed.

Lemma lstrip_head s :
  lstrip s = "" \/ exists c r, lstrip s = String c r /\ is_space c = false.
Proof.
  induction s as [|c s IH]; [by left|]. cbn [lstrip].
  destruct (is_space c) eqn:Hc; [done|]. right. by exists c, s.
Qed.

Lemma rstrip_keeps_head c s :
  is_space c = false -> exists r, rstrip (String c s) = String c r.
Proof.
  intros Hc. cbn [rstrip]. destruct (rstrip s); [|by eexists].
  rewrite Hc. by eexists.
Qed.

(** A stripped text begins and ends with no white space: stripping it again,
    on either side, changes nothing. *)
Lemma strip_lstrip s : lstrip (strip s) = strip s.
Proof.
  unfold strip. destruct (lstrip_head s) as [->|(c & r & -> & Hc)]; [done|].
  destruct (rstrip_keeps_head c r Hc) as [r' ->]. simpl. by rewrite Hc.
Qed.

Lemma strip_rstrip s : rstrip (strip s) = strip s.
Proof. unfold strip. apply rstrip_idem. Qed.

Lemma strip_idem s : strip (strip s) = strip s.
Proof. unfold strip at 1. by rewrite strip_lstrip, strip_rstrip. Qed.




End StrMore.

Module SplitFacts.
Import Str StrFacts StrMore.

Lemma split_cases sep (Hsep : sep <> EmptyString) s :
  (find sep s = None /\ split sep None s = [s])
  \/ (contains sep s = true
      /\ split sep None s = before sep s :: split sep None (after sep s)
      /\ String.length (after sep s) < String.length s).
Proof.
  rewrite split_unfold by done. unfold contains, before, after.
  destruct (find sep s) as [i|] eqn:Hi; [right | by left].
  split; [done|]. split; [done|].
  pose proof (find_bound _ _ _ Hi).
  assert (0 < String.length sep) by (destruct sep; [done | simpl; lia]).
  rewrite length_drop. lia.
Qed.

Lemma split_not_nil sep (Hsep : sep <> EmptyString) s :
  split sep None s <> [].
Proof. by destruct (split_cases sep Hsep s) as [[_ ->]|(_ & -> & _)]. Qed.

(** No piece of a split holds the separator. *)
Lemma split_pieces sep (Hsep : sep <> EmptyString) s piece :
  piece ∈ split sep None s -> contains sep piece = false.
Proof.
  remember (S (String.length s)) as n eqn:Hn.
  assert (Hlt : String.length s < n) by lia. clear Hn.
  revert s Hlt. induction n as [|n IH]; intros s Hlt; [lia|].
  destruct (split_cases sep Hsep s) as [[Hf ->]|(_ & -> & Hlen)].
  - intros ->%list_elem_of_singleton. unfold contains. by rewrite Hf.
  - intros [->|Hin]%elem_of_cons; [by apply contains_before|].
    apply (IH (after sep s)); [lia | done].
Qed.

(** Joining the pieces with the separator gives the text back. *)
Lemma join_split sep (Hsep : sep <> EmptyString) s :
  join sep (split sep None s) = s.
Proof.
  remember (S (String.length s)) as n eqn:Hn.
  assert (Hlt : String.length s < n) by lia. clear Hn.
  revert s Hlt. induction n as [|n IH]; intros s Hlt; [lia|].
  destruct (split_cases sep Hsep s) as [[Hf ->]|(Hc & -> & Hlen)]; [done|].
  specialize (IH (after sep s) ltac:(lia)).
  destruct (split sep None (after sep s)) as [|x l] eqn:Hs.
  { by apply split_not_nil in Hs. }
  cbn [join]. cbn [join] in IH. rewrite IH. symmetry.
  by apply before_sep_after.
Qed.

End SplitFacts.

(** * More on the parser *)

Lemma dict_get_Some_elem (d : dict) k v :
  dict_get d k = Some v -> (k, v) ∈ d.
Proof.
  induction d as [|[k' v'] d IH]; cbn [dict_get]; [done|].
  destruct (String.eqb_spec k' k) as [->|_].
  - intros [= ->]. by left.
  - intros H. right. by apply IH.
Qed.

(** Every entry of the dictionary is one of the assigned pairs. *)
Lemma dict_of_items_elem l k v :
  (k, v) ∈ dict_of_items l -> (k, v) ∈ l.
Proof.
  rewrite dict_get_elem by apply dict_of_items_NoDup.
  rewrite dict_of_items_get. intros H%dict_get_Some_elem.
  apply list_elem_of_In. apply list_elem_of_In in H. by apply in_rev.
Qed.

Lemma colon_items_elem ls k v :
  (k, v) ∈ colon_items ls ->
  exists line,
    line ∈ ls /\ Str.contains ":" line = true /\ (k, v) = colon_item line.
Proof.
  unfold colon_items. intros (line & Heq & Hin)%list_elem_of_fmap.
  apply list_elem_of_In, filter_In in Hin as [Hin Hc].
  exists line. by rewrite list_elem_of_In.
Qed.

(** The closed form of the parser on every response. *)
Lemma parse_response_parsed w response_text path fi st :
  build_file_info w path = Returned fi ->
  fst (_parse_response w response_text path st)
    = Returned (parsed_record fi response_text)
  /\ files (snd (_parse_response w response_text path st)) = files st.
Proof.
  intros Hfi. destruct response_text as [text|].
  - rewrite (parse_response_str w text path fi st Hfi). done.
  - unfold _parse_response. rewrite Hfi. done.
Qed.

(** X1: the parser raises exactly when the size of the file cannot be read.
    It then raises [UnboundLocalError] whatever the response is, the error of
    [os.path.getsize] being only printed; otherwise it returns a record. In
    both cases it writes no file. *)
Theorem parse_response_raises_iff_size_unreadable w response_text path st :
  (fst (_parse_response w response_text path st)
     = Raised (Exn "UnboundLocalError"
         "cannot access local variable 'file_info' where it is not associated with a value")
   <-> exists e, getsize w path = Raised e)
  /\ ((exists data,
         fst (_parse_response w response_text path st) = Returned data)
      <-> exists n, getsize w path = Returned n)
  /\ (forall e,
        getsize w path = Raised e ->
        stdout (snd (_parse_response w response_text path st))
          = stdout st ++ ["Error parsing response: " +:+ exn_msg e])
  /\ files (snd (_parse_response w response_text path st)) = files st.
Proof.
  destruct (getsize w path) as [n|e] eqn:Hsz.
  - assert (Hfi : build_file_info w path
                  = Returned {| filename := Path.name path;
                                file_size := format_mb w n +:+ " MB";
                                processed_at := now_isoformat w |}).
    { unfold build_file_info. by rewrite Hsz. }
    destruct (parse_response_parsed w response_text path _ st Hfi) as [-> ->].
    split; [|split; [|split]]; try done.
    + split; [done | by intros [e ?]].
    + split; eauto.
  - rewrite (parse_response_unbound w response_text path e st Hsz).
    split; [|split; [|split]]; try done.
    + split; eauto.
    + split; [by intros [data ?] | by intros [n ?]].
    + by intros e' [= <-].
Qed.

(** X2: a record the parser returns always carries the response itself as
    [raw_response], the last component of the path as file name, the size as
    the environment formats it and the clock reading, on every path of the
    parser. *)
Theorem parse_response_passes_input_through w response_text path st data :
  fst (_parse_response w response_text path st) = Returned data ->
  raw_response data = response_text
  /\ exists n,
       getsize w path = Returned n
       /\ file_info data
          = {| filename := Path.name path;
               file_size := format_mb w n +:+ " MB";
               processed_at := now_isoformat w |}.
Proof.
  destruct (getsize w path) as [n|e] eqn:Hsz.
  - assert (Hfi : build_file_info w path
                  = Returned {| filename := Path.name path;
                                file_size := format_mb w n +:+ " MB";
                                processed_at := now_isoformat w |}).
    { unfold build_file_info. by rewrite Hsz. }
    destruct (parse_response_parsed w response_text path _ st Hfi) as [-> _].
    intros [= <-].
    assert (raw_response (parsed_record
              {| filename := Path.name path;
                 file_size := format_mb w n +:+ " MB";
                 processed_at := now_isoformat w |} response_text)
            = response_text
            /\ file_info (parsed_record
                 {| filename := Path.name path;
                    file_size := format_mb w n +:+ " MB";
                    processed_at := now_isoformat w |} response_text)
               = {| filename := Path.name path;
                    file_size := format_mb w n +:+ " MB";
                    processed_at := now_isoformat w |}) as [Hraw Hinfo].
    { destruct response_text as [text|]; [|done].
      cbn [parsed_record]. by destruct (has_markers text). }
    split; [done|]. by exists n.
  - by rewrite (parse_response_unbound w response_text path e st Hsz).
Qed.

Lemma parse_response_passes_input_through_witness :
  exists data,
    fst (_parse_response Demo.w PyNone "a.mp3" Demo.st) = Returned data
    /\ raw_response data = PyNone
    /\ filename (file_info data) = "a.mp3".
Proof.
  eexists. split; [reflexivity|].
  destruct (parse_response_passes_input_through Demo.w PyNone "a.mp3" Demo.st
              _ eq_refl) as (Hraw & n & _ & Hinfo).
  split; [exact Hraw|]. rewrite Hinfo. reflexivity.
Defined.

(** X3: on the structured path the transcript and every key and value of the
    metadata are stripped: none begins or ends with white space. *)
Theorem structured_fields_are_stripped w text path fi st :
  build_file_info w path = Returned fi ->
  has_markers text = true ->
  exists data t,
    fst (_parse_response w (PyStr text) path st) = Returned data
    /\ transcript data = PyStr t
    /\ Str.lstrip t = t /\ Str.rstrip t = t
    /\ (forall k v,
          (k, v) ∈ metadata data ->
          Str.lstrip k = k /\ Str.rstrip k = k
          /\ Str.lstrip v = v /\ Str.rstrip v = v).
Proof.
  intros Hfi Hm. rewrite (parse_response_str w text path fi st Hfi), Hm.
  eexists _, _. split; [reflexivity|]. split; [reflexivity|].
  unfold transcript_section.
  split; [apply StrMore.strip_lstrip|]. split; [apply StrMore.strip_rstrip|].
  intros k v Hin. cbn [metadata structured_record] in Hin.
  apply dict_of_items_elem, colon_items_elem in Hin
    as (line & _ & _ & [= -> ->]).
  auto using StrMore.strip_lstrip, StrMore.strip_rstrip.
Qed.

Lemma structured_fields_are_stripped_witness :
  exists data t,
    fst (_parse_response Demo.w (PyStr Demo.mixed_text) "a.mp3" Demo.st)
      = Returned data
    /\ transcript data = PyStr t
    /\ Str.lstrip t = t /\ Str.rstrip t = t.
Proof.
  destruct (structured_fields_are_stripped Demo.w Demo.mixed_text "a.mp3"
              Demo.fi Demo.st eq_refl eq_refl)
    as (data & t & H1 & H2 & H3 & H4 & _).
  by exists data, t.
Defined.



(** X5: when [[TRANSCRIPT]] occurs once in a text with both markers, the
    transcript is everything after that marker, stripped. *)
Theorem transcript_after_single_marker w text path fi st :
  build_file_info w path = Returned fi ->
  has_markers text = true ->
  Str.contains "[TRANSCRIPT]" (Str.after "[TRANSCRIPT]" text) = false ->
  exists data,
    fst (_parse_response w (PyStr text) path st) = Returned data
    /\ transcript data = PyStr (Str.strip (Str.after "[TRANSCRIPT]" text))
    /\ text = Str.before "[TRANSCRIPT]" text +:+ "[TRANSCRIPT]"
              +:+ Str.after "[TRANSCRIPT]" text
    /\ Str.contains "[TRANSCRIPT]" (Str.before "[TRANSCRIPT]" text) = false.
Proof.
  intros Hfi Hm Hone. rewrite (parse_response_str w text path fi st Hfi), Hm.
  eexists. split; [reflexivity|]. cbn [transcript structured_record].
  rewrite transcript_section_single_marker by done. split; [done|].
  apply andb_prop in Hm as [_ Ht].
  split; [by apply StrFacts.before_sep_after|].
  by apply StrFacts.contains_before.
Qed.

Lemma transcript_after_single_marker_witness :
  exists data,
    fst (_parse_response Demo.w (PyStr Demo.structured_text) "a.mp3" Demo.st)
      = Returned data
    /\ transcript data = PyStr "Hello world".
Proof.
  destruct (transcript_after_single_marker Demo.w Demo.structured_text "a.mp3"
              Demo.fi Demo.st eq_refl eq_refl eq_refl) as (data & H1 & H2 & _).
  exists data. split; [exact H1 | exact H2].
Defined.

(** * The service call *)

Lemma build_file_info_Raised w path e :
  getsize w path = Raised e -> build_file_info w path = Raised e.
Proof. intros H. unfold build_file_info. by rewrite H. Qed.

Lemma build_file_info_cases w path :
  (exists fi n, getsize w path = Returned n /\ build_file_info w path = Returned fi)
  \/ (exists e, getsize w path = Raised e /\ build_file_info w path = Raised e).
Proof.
  unfold build_file_info. destruct (getsize w path) as [n|e]; [left | right]; eauto.
Qed.

(** [transcribe_audio] returns [transcribe_result]; it prints and does
    nothing else. *)
Lemma transcribe_audio_value w file_path flag st :
  exists out,
    transcribe_audio w file_path flag st
      = (Returned (transcribe_result w file_path flag),
         State (files st) (stdout st ++ out)).
Proof.
  unfold transcribe_audio, transcribe_result.
  unfold bind, try_except, print, lift, ret.
  set (prompt := if flag then _get_detailed_prompt else _get_basic_prompt).
  set (l1 := "Uploading file: " +:+ file_path).
  set (l2 := "File uploaded successfully. Starting transcription...").
  set (l3 := "Transcription completed!").
  destruct (files_upload w file_path) as [h|e]; cbn [fst snd files stdout].
  2:{ exists [l1; "Error during transcription: " +:+ exn_msg e].
      by rewrite <- app_assoc. }
  destruct (generate_content w model prompt h) as [v|e];
    cbn [fst snd files stdout].
  2:{ exists [l1; l2; "Error during transcription: " +:+ exn_msg e].
      by rewrite <- !app_assoc. }
  destruct (build_file_info_cases w file_path)
    as [(fi & n & Hsz & Hfi)|(e & Hsz & Hfi)]; rewrite Hfi.
  - destruct (parse_response_bound w v file_path fi
                (State (files st) (((stdout st ++ [l1]) ++ [l2]) ++ [l3])) Hfi)
      as (data & out & Hrun).
    pose proof (parse_response_parsed w v file_path fi
                  (State (files st) (((stdout st ++ [l1]) ++ [l2]) ++ [l3])) Hfi)
      as [Hval _].
    rewrite Hrun in Hval |- *. cbn [fst] in Hval. injection Hval as ->.
    cbn [files stdout]. exists ([l1; l2; l3] ++ out).
    by rewrite <- !app_assoc.
  - rewrite (parse_response_unbound w v file_path e _ Hsz).
    cbn [files stdout]. eexists [l1; l2; l3; _; _].
    by rewrite <- !app_assoc.
Qed.

(** X6: [transcribe_audio] never raises and writes no file. It returns
    [None] exactly when the upload raises, the generation raises or the size
    of the file cannot be read; the parser's own exception is absorbed. *)
Theorem transcribe_audio_never_raises w file_path flag st :
  exists r out,
    transcribe_audio w file_path flag st
      = (Returned r, State (files st) (stdout st ++ out))
    /\ (r = None <->
        (exists e, files_upload w file_path = Raised e)
        \/ (exists myfile e,
              files_upload w file_path = Returned myfile
              /\ generate_content w model
                   (if flag then _get_detailed_prompt else _get_basic_prompt)
                   myfile = Raised e)
        \/ (exists e, getsize w file_path = Raised e)).
Proof.
  destruct (transcribe_audio_value w file_path flag st) as [out ->].
  eexists _, out. split; [reflexivity|]. unfold transcribe_result.
  destruct (files_upload w file_path) as [h|e] eqn:Hup.
  2:{ split; [eauto | done]. }
  destruct (generate_content w model _ h) as [v|e] eqn:Hgen.
  2:{ split; [|done]. intros _. right. left. eauto. }
  destruct (build_file_info_cases w file_path)
    as [(fi & n & Hsz & Hfi)|(e & Hsz & Hfi)]; rewrite Hfi.
  - split; [done|].
    intros [[e He]|[(h' & e & [= <-] & He)|[e He]]]; congruence.
  - split; [|done]. intros _. right. right. eauto.
Qed.

(** * The exporters *)

Lemma to_notion_markdown_default w data output_path st :
  to_notion_markdown w data output_path st =
    match open_w w (default_path w output_path ".md") with
    | Returned _ =>
        (Returned (default_path w output_path ".md"),
         State (<[default_path w output_path ".md" := notion_markdown data]>
                  (files st))
           (stdout st ++ ["Notion Markdown exported to: "
                          +:+ default_path w output_path ".md"]))
    | Raised e => (Raised e, st)
    end.
Proof.
  unfold to_notion_markdown, default_path, bind, lift, write_file, print, ret.
  destruct output_path as [p|].
  - by destruct (open_w w p).
  - by destruct (open_w w _).
Qed.

Lemma to_google_docs_text_run w data output_path st :
  to_google_docs_text w data output_path st =
    match google_docs_text data with
    | Raised e => (Raised e, st)
    | Returned content =>
        match open_w w (default_path w output_path ".txt") with
        | Returned _ =>
            (Returned (default_path w output_path ".txt"),
             State (<[default_path w output_path ".txt" := content]> (files st))
               (stdout st ++ ["Google Docs text exported to: "
                              +:+ default_path w output_path ".txt"]))
        | Raised e => (Raised e, st)
        end
    end.
Proof.
  unfold to_google_docs_text, bind, lift, write_file, print, ret.
  destruct (google_docs_text data); [|done].
  by destruct (open_w w _).
Qed.

Lemma to_json_run w data output_path st :
  to_json w data output_path st =
    match open_w w (default_path w output_path ".json") with
    | Returned _ =>
        (Returned (default_path w output_path ".json"),
         State (<[default_path w output_path ".json" := json_dumps data]>
                  (files st))
           (stdout st ++ ["JSON exported to: "
                          +:+ default_path w output_path ".json"]))
    | Raised e => (Raised e, st)
    end.
Proof.
  unfold to_json, bind, lift, write_file, print, ret.
  by destruct (open_w w _).
Qed.



(** X8: an exporter whose file cannot be opened raises the error of [open]
    to its caller and leaves everything as it was; one that returns has
    written its path and no other. *)
Theorem export_failure_propagates w data output_path st :
  (forall e,
     open_w w (default_path w output_path ".md") = Raised e ->
     to_notion_markdown w data output_path st = (Raised e, st))
  /\ (forall e,
        open_w w (default_path w output_path ".json") = Raised e ->
        to_json w data output_path st = (Raised e, st))
  /\ (forall e t,
        transcript data = PyStr t ->
        open_w w (default_path w output_path ".txt") = Raised e ->
        to_google_docs_text w data output_path st = (Raised e, st))
  /\ (forall p q,
        q <> p ->
        (fst (to_notion_markdown w data output_path st) = Returned p ->
         files (snd (to_notion_markdown w data output_path st)) !! q
           = files st !! q)
        /\ (fst (to_json w data output_path st) = Returned p ->
            files (snd (to_json w data output_path st)) !! q = files st !! q)
        /\ (fst (to_google_docs_text w data output_path st) = Returned p ->
            files (snd (to_google_docs_text w data output_path st)) !! q
              = files st !! q)).
Proof.
  rewrite to_notion_markdown_default, to_json_run, to_google_docs_text_run.
  split; [by intros e ->|]. split; [by intros e ->|].
  split. { intros e t Ht ->. unfold google_docs_text. by rewrite Ht. }
  intros p q Hne. split; [|split].
  - destruct (open_w w _); [|done]. cbn [fst snd files].
    intros [= <-]. by rewrite lookup_insert_ne.
  - destruct (open_w w _); [|done]. cbn [fst snd files].
    intros [= <-]. by rewrite lookup_insert_ne.
  - destruct (google_docs_text data); [|done].
    destruct (open_w w _); [|done]. cbn [fst snd files].
    intros [= <-]. by rewrite lookup_insert_ne.
Qed.

Section BlankLine.

Import Str StrFacts StrMore.

Lemma find_cons sub c s :
  find sub (String c s)
    = if startswith sub (String c s) then Some 0 else S <$> find sub s.
Proof. reflexivity. Qed.

Lemma after_blank_skip c s :
  c <> "010"%char ->
  after (nl +:+ nl) (String c s) = after (nl +:+ nl) s.
Proof.
  intros Hc. unfold after. rewrite find_cons.
  assert (startswith (nl +:+ nl) (String c s) = false) as ->.
  { change (nl +:+ nl) with (String "010" (String "010" "")).
    cbn [startswith]. destruct (Ascii.eqb_spec "010" c); [congruence | done]. }
  by destruct (find (nl +:+ nl) s).
Qed.

Lemma after_blank_skip_nl c s :
  c <> "010"%char ->
  after (nl +:+ nl) (String "010" (String c s))
    = after (nl +:+ nl) (String c s).
Proof.
  intros Hc. unfold after. rewrite (find_cons _ "010").
  assert (startswith (nl +:+ nl) (String "010" (String c s)) = false) as ->.
  { change (nl +:+ nl) with (String "010" (String "010" "")).
    cbn [startswith]. rewrite Ascii.eqb_refl.
    destruct (Ascii.eqb_spec "010" c); [congruence | done]. }
  by destruct (find (nl +:+ nl) (String c s)).
Qed.

Lemma contains_char_cons c d s :
  contains (String c "") (String d s)
    = Ascii.eqb c d || contains (String c "") s.
Proof.
  unfold contains. cbn [find startswith].
  destruct (Ascii.eqb c d); [done|]. cbn [andb orb].
  by destruct (find (String c "") s).
Qed.

Lemma after_blank_skip_line a c s :
  contains nl a = false -> c <> "010"%char ->
  after (nl +:+ nl) (a +:+ String "010" (String c s))
    = after (nl +:+ nl) (String c s).
Proof.
  intros Ha Hc. induction a as [|x a IH].
  - by apply after_blank_skip_nl.
  - unfold nl in Ha. rewrite contains_char_cons in Ha.
    apply orb_false_elim in Ha as [Hx Ha].
    rewrite app_cons_str, after_blank_skip; [by apply IH|].
    intros ->. by rewrite Ascii.eqb_refl in Hx.
Qed.

Lemma after_blank_here s : after (nl +:+ nl) (nl +:+ nl +:+ s) = s.
Proof. reflexivity. Qed.

End BlankLine.

(** X9: the plain-text export keeps the whole transcript: when neither the
    file name nor the time stamp holds a line feed, the transcript is exactly
    what follows the first blank line of the exported text. *)
Theorem google_docs_text_keeps_transcript data t :
  transcript data = PyStr t ->
  Str.contains nl (filename (file_info data)) = false ->
  Str.contains nl (processed_at (file_info data)) = false ->
  exists content,
    google_docs_text data = Returned content
    /\ Str.after (nl +:+ nl) content = t.
Proof.
  intros Ht Hfn Hts. unfold google_docs_text. rewrite Ht.
  eexists. split; [reflexivity|]. unfold google_docs_header.
  rewrite !StrMore.app_assoc_str.
  remember (nl +:+ nl) as blank eqn:Hblank.
  repeat progress change (nl +:+ ?x) with (String "010" x).
  change ("Generated: " +:+ ?x) with
    (String "G" (String "e" (String "n" (String "e" (String "r" (String "a"
      (String "t" (String "e" (String "d" (String ":" (String " " x))))))))))).
  change (Str.repeat "=" 50 +:+ ?x)
    with (String "=" (Str.repeat "=" 49 +:+ x)).
  subst blank.
  change ("TRANSCRIPT: " +:+ ?x) with
    (String "T" (String "R" (String "A" (String "N" (String "S" (String "C"
      (String "R" (String "I" (String "P" (String "T" (String ":"
        (String " " x)))))))))))).
  do 12 (rewrite after_blank_skip by discriminate).
  rewrite after_blank_skip_line by (assumption || discriminate).
  do 11 (rewrite after_blank_skip by discriminate).
  rewrite after_blank_skip_line by (assumption || discriminate).
  assert (Hskip : forall n x,
            Str.after (nl +:+ nl) (Str.repeat "=" n +:+ x)
            = Str.after (nl +:+ nl) x).
  { induction n as [|n IH]; intros x; [done|].
    change (Str.repeat "=" (S n) +:+ x)
      with (String "=" (Str.repeat "=" n +:+ x)).
    rewrite after_blank_skip by discriminate. apply IH. }
  rewrite after_blank_skip by discriminate. rewrite Hskip.
  reflexivity.
Qed.

Lemma google_docs_text_keeps_transcript_witness :
  exists content,
    google_docs_text Sample.data = Returned content
    /\ Str.after (nl +:+ nl) content = "Hello world".
Proof.
  apply (google_docs_text_keeps_transcript Sample.data "Hello world");
    reflexivity.
Defined.

(** X10: two exports without an explicit path at the same reading of the
    clock go to the same file: both calls return the same path and the file
    holds the second record only. *)
Theorem default_path_collision w data1 data2 st :
  open_w w ("transcript_" +:+ now_strftime w +:+ ".md") = Returned tt ->
  let first := to_notion_markdown w data1 None st in
  let second := to_notion_markdown w data2 None (snd first) in
  fst first = Returned ("transcript_" +:+ now_strftime w +:+ ".md")
  /\ fst second = fst first
  /\ files (snd second) !! ("transcript_" +:+ now_strftime w +:+ ".md")
     = Some (notion_markdown data2)
  /\ files (snd second)
     = <["transcript_" +:+ now_strftime w +:+ ".md" := notion_markdown data2]>
         (files st).
Proof.
  intros Hopen. cbn zeta. rewrite !to_notion_markdown_default.
  cbn [default_path]. rewrite Hopen. cbn [fst snd files].
  rewrite insert_insert_eq, lookup_insert_eq. done.
Qed.

Lemma default_path_collision_witness :
  files (snd (to_notion_markdown Demo.w Sample.error_data None
                (snd (to_notion_markdown Demo.w Sample.data None Demo.st))))
    !! "transcript_20240101_000000.md"
  = Some (notion_markdown Sample.error_data).
Proof.
  apply (default_path_collision Demo.w Sample.data Sample.error_data Demo.st).
  reflexivity.
Defined.

Lemma export_failure_propagates_witness :
  to_json Sample.read_only Sample.data (Some "out/a.json") Demo.st
    = (Raised (Exn "PermissionError"
                 "[Errno 13] Permission denied: 'out/a.json'"), Demo.st).
Proof.
  apply (export_failure_propagates Sample.read_only Sample.data
           (Some "out/a.json") Demo.st).
  reflexivity.
Defined.

Section Json.

Import StrMore.

Lemma json_read_escape_char c tail t rest :
  json_read_string tail = Some (t, rest) ->
  json_read_string (json_escape_char c +:+ tail) = Some (String c t, rest).
Proof.
  intros H.
  destruct c as [[] [] [] [] [] [] [] []];
    vm_compute json_escape_char; cbv [String.append];
    cbn; rewrite H; reflexivity.
Qed.

Lemma json_read_escape s rest :
  json_read_string (json_escape s +:+ dq +:+ rest) = Some (s, rest).
Proof.
  induction s as [|c s IH]; [done|].
  cbn [json_escape]. rewrite app_assoc_str.
  by apply json_read_escape_char.
Qed.

(** The encoding of a string ends at its own closing quote: two encodings
    that agree, whatever follows them, encode the same string. *)
Lemma app_inv_head_str (p a b : string) : p +:+ a = p +:+ b -> a = b.
Proof. apply (String.app_inj p). Qed.

Lemma json_string_app a r :
  json_string a +:+ r = String "034" (json_escape a +:+ dq +:+ r).
Proof.
  unfold json_string.
  by rewrite (app_assoc_str dq), (app_assoc_str (json_escape a)).
Qed.

Lemma json_string_inj a b r1 r2 :
  json_string a +:+ r1 = json_string b +:+ r2 -> a = b /\ r1 = r2.
Proof.
  rewrite !json_string_app.
  intros [= H]. apply (f_equal json_read_string) in H.
  rewrite !json_read_escape in H. by injection H.
Qed.

Lemma json_pyval_inj a b r1 r2 :
  json_encode 1 (json_of_pyval a) +:+ r1
    = json_encode 1 (json_of_pyval b) +:+ r2 ->
  a = b /\ r1 = r2.
Proof.
  destruct a as [a|], b as [b|]; cbn [json_of_pyval json_encode].
  - intros [-> ->]%json_string_inj. done.
  - rewrite json_string_app. discriminate.
  - rewrite json_string_app. discriminate.
  - intros H. apply app_inv_head_str in H. by subst.
Qed.

Lemma json_item_inj (x y : string * string) r1 r2 :
  json_string (fst x) +:+ ": " +:+ json_string (snd x) +:+ r1
    = json_string (fst y) +:+ ": " +:+ json_string (snd y) +:+ r2 ->
  x = y /\ r1 = r2.
Proof.
  intros [Hk H]%json_string_inj.
  apply app_inv_head_str in H. apply json_string_inj in H as [Hv Hr].
  destruct x, y; simpl in *. by subst.
Qed.

Lemma join_single sep (x : string) : Str.join sep [x] = x.
Proof. reflexivity. Qed.

Lemma join_cons2 sep (x y : string) l :
  Str.join sep (x :: y :: l) = x +:+ sep +:+ Str.join sep (y :: l).
Proof. reflexivity. Qed.

Lemma json_items_inj (sep closing : string) (c1 c2 : ascii) s1 s2 :
  sep = String c1 s1 -> closing = String c2 s2 -> c1 <> c2 ->
  forall (a b : list (string * string)) r1 r2,
    a <> [] -> b <> [] ->
    Str.join sep
      (map (fun kv => json_string (fst kv) +:+ ": " +:+ json_string (snd kv)) a)
      +:+ closing +:+ r1
    = Str.join sep
        (map (fun kv => json_string (fst kv) +:+ ": " +:+ json_string (snd kv)) b)
        +:+ closing +:+ r2 ->
    a = b /\ r1 = r2.
Proof.
  intros -> -> Hne.
  induction a as [|x a IH]; intros b r1 r2 Ha Hb; [done|].
  destruct b as [|y b]; [done|]. clear Ha Hb.
  destruct a as [|x' a], b as [|y' b]; cbn [map];
    rewrite ?join_cons2, ?join_single, !app_assoc_str.
  - intros [-> H]%json_item_inj. apply app_inv_head_str in H. by subst.
  - intros [-> H]%json_item_inj. rewrite !app_cons_str in H.
    injection H as ? _. congruence.
  - intros [-> H]%json_item_inj. rewrite !app_cons_str in H.
    injection H as ? _. congruence.
  - intros [-> H]%json_item_inj. apply app_inv_head_str in H.
    apply (IH (y' :: b)) in H as [-> ->]; done.
Qed.

Lemma json_dict_text (d : dict) :
  json_encode 1 (json_of_dict d) =
    match d with
    | [] => "{}"
    | _ :: _ =>
        "{" +:+ nl +:+ "    " +:+
        Str.join ("," +:+ nl +:+ "    ")
          (map (fun kv => json_string (fst kv) +:+ ": " +:+ json_string (snd kv))
             d)
        +:+ nl +:+ "  }"
    end.
Proof.
  destruct d as [|kv d]; [done|].
  unfold json_of_dict. cbn [json_encode map]. rewrite map_map.
  cbn [fst snd json_encode]. reflexivity.
Qed.

Lemma json_dict_inj (a b : dict) r1 r2 :
  json_encode 1 (json_of_dict a) +:+ r1
    = json_encode 1 (json_of_dict b) +:+ r2 ->
  a = b /\ r1 = r2.
Proof.
  rewrite !json_dict_text.
  destruct a as [|x a], b as [|y b].
  - intros H. apply app_inv_head_str in H. by subst.
  - rewrite !app_assoc_str. discriminate.
  - rewrite !app_assoc_str. discriminate.
  - rewrite !app_assoc_str. intros H. injection H as H.
    apply (json_items_inj ("," +:+ nl +:+ "    ") (nl +:+ "  }") "," "010"
             (nl +:+ "    ") "  }" eq_refl eq_refl ltac:(discriminate)
             (x :: a) (y :: b) r1 r2 ltac:(done) ltac:(done)).
    exact H.
Qed.

Lemma json_dumps_text data :
  json_dumps data =
    ("{" +:+ nl +:+ "  " +:+ json_string "file_info" +:+ ": {" +:+ nl +:+ "    "
     +:+ json_string "filename" +:+ ": ")
    +:+ json_string (filename (file_info data))
    +:+ ("," +:+ nl +:+ "    " +:+ json_string "file_size" +:+ ": ")
    +:+ json_string (file_size (file_info data))
    +:+ ("," +:+ nl +:+ "    " +:+ json_string "processed_at" +:+ ": ")
    +:+ json_string (processed_at (file_info data))
    +:+ (nl +:+ "  }," +:+ nl +:+ "  " +:+ json_string "metadata" +:+ ": ")
    +:+ json_encode 1 (json_of_dict (metadata data))
    +:+ ("," +:+ nl +:+ "  " +:+ json_string "transcript" +:+ ": ")
    +:+ json_encode 1 (json_of_pyval (transcript data))
    +:+ ("," +:+ nl +:+ "  " +:+ json_string "raw_response" +:+ ": ")
    +:+ json_encode 1 (json_of_pyval (raw_response data))
    +:+ nl +:+ "}".
Proof.
  unfold json_dumps, json_of_data.
  cbn [json_encode map fst snd Str.join Str.repeat Nat.mul Nat.add].
  rewrite !app_assoc_str. reflexivity.
Qed.

End Json.

(** X11: the JSON export loses nothing: two different records never have
    the same JSON text. *)
Theorem json_dumps_injective data1 data2 :
  data1 <> data2 -> json_dumps data1 <> json_dumps data2.
Proof.
  intros Hne H. apply Hne. clear Hne. revert H.
  rewrite !json_dumps_text. intros H.
  apply app_inv_head_str in H.
  apply json_string_inj in H as [Hfn H]. apply app_inv_head_str in H.
  apply json_string_inj in H as [Hsz H]. apply app_inv_head_str in H.
  apply json_string_inj in H as [Hpa H]. apply app_inv_head_str in H.
  apply json_dict_inj in H as [Hmd H]. apply app_inv_head_str in H.
  apply json_pyval_inj in H as [Htr H]. apply app_inv_head_str in H.
  apply json_pyval_inj in H as [Hraw _].
  destruct data1 as [[fn1 sz1 pa1] md1 tr1 raw1],
           data2 as [[fn2 sz2 pa2] md2 tr2 raw2].
  simpl in *. by subst.
Qed.

Lemma json_dumps_injective_witness :
  json_dumps Sample.data <> json_dumps Sample.error_data.
Proof.
  apply (json_dumps_injective Sample.data Sample.error_data).
  discriminate.
Defined.

(** X12: inside a JSON string every control character is escaped: the text
    of a string holds no character below the space, so no line feed of a
    transcript breaks the layout of the document. *)
Theorem json_string_has_no_control_character s c :
  In c (list_ascii_of_string (json_string s)) -> (32 <= N_of_ascii c)%N.
Proof.
  assert (Hchar : forall x c,
            In c (list_ascii_of_string (json_escape_char x)) ->
            (32 <= N_of_ascii c)%N).
  { intros x c0 Hin.
    assert (forallb (fun c => (32 <=? N_of_ascii c)%N)
              (list_ascii_of_string (json_escape_char x)) = true) as Hall
      by (destruct x as [[] [] [] [] [] [] [] []]; vm_compute; reflexivity).
    rewrite forallb_forall in Hall. by apply N.leb_le, Hall. }
  assert (Happ : forall a b,
            list_ascii_of_string (a +:+ b)
            = list_ascii_of_string a ++ list_ascii_of_string b).
  { intros a b. induction a as [|x a IH]; [done|].
    rewrite StrMore.app_cons_str. simpl. by rewrite IH. }
  assert (Hesc : forall c,
            In c (list_ascii_of_string (json_escape s)) ->
            (32 <= N_of_ascii c)%N).
  { induction s as [|x s IH]; [done|]. intros c0.
    cbn [json_escape]. rewrite Happ, in_app_iff. intros [H|H]; eauto. }
  unfold json_string. rewrite !Happ, !in_app_iff.
  intros [H|[H|H]]; [|by apply Hesc|].
  - destruct H as [<-|[]]. by vm_compute.
  - destruct H as [<-|[]]. by vm_compute.
Qed.

Lemma json_string_has_no_control_character_witness :
  (32 <= N_of_ascii "n")%N.
Proof.
  apply (json_string_has_no_control_character nl "n").
  vm_compute. tauto.
Defined.

(** * The single-file workflow *)

Section Main.

Import StrMore.

Lemma last_char_app a b :
  b <> EmptyString -> last_char (a +:+ b) = last_char b.
Proof.
  intros Hb. induction a as [|c a IH]; [done|].
  rewrite app_cons_str. cbn [last_char]. rewrite IH.
  destruct (a +:+ b) eqn:E; [|done].
  destruct a; [|done]. by destruct b.
Qed.

(** The three default paths differ, whatever the clock shows. *)
Lemma default_paths_differ (s1 s2 : string) (e1 e2 : string) :
  last_char e1 <> last_char e2 -> e1 <> EmptyString -> e2 <> EmptyString ->
  "transcript_" +:+ s1 +:+ e1 <> "transcript_" +:+ s2 +:+ e2.
Proof.
  intros Hl H1 H2 Heq. apply (f_equal last_char) in Heq.
  rewrite !(last_char_app "transcript_") in Heq.
  - by rewrite !last_char_app in Heq.
  - by destruct s2, e2.
  - by destruct s1, e1.
Qed.

Variables (w : world) (path_exists : string -> bool).
Variables (stamps : string * string * string).

Lemma main_paths_differ :
  main_md_path stamps <> main_txt_path stamps
  /\ main_md_path stamps <> main_json_path stamps
  /\ main_txt_path stamps <> main_json_path stamps.
Proof. repeat split; by apply default_paths_differ. Qed.

(** The run of [main] up to the exports. *)
Lemma main_run st :
  new_client w = Returned tt ->
  exists out out',
    main w path_exists stamps st =
      if negb (path_exists audio_file) then
        (Returned tt, State (files st) (stdout st ++ out))
      else
        match transcribe_result w audio_file true with
        | None => (Returned tt, State (files st) (stdout st ++ out))
        | Some data =>
            (notion_file <-
               to_notion_markdown (at_clock w (fst (fst stamps))) data None ;;
             docs_file <-
               to_google_docs_text (at_clock w (snd (fst stamps))) data None ;;
             json_file <- to_json (at_clock w (snd stamps)) data None ;;
             print (nl +:+ "=== TRANSCRIPTION COMPLETE ===") ;;
             print ("Input file: " +:+ filename (file_info data)) ;;
             print ("Speakers identified: " +:+
                    dict_get_default (metadata data) "Total Speakers" "Unknown") ;;
             print ("Audio quality: " +:+
                    dict_get_default (metadata data) "Audio Quality" "Unknown") ;;
             print (nl +:+ "First 500 characters of transcript:") ;;
             preview <- lift (transcript_preview (transcript data)) ;;
             print preview ;;
             print (nl +:+ "Exported files:") ;;
             print ("- Notion: " +:+ notion_file) ;;
             print ("- Google Docs: " +:+ docs_file) ;;
             print ("- JSON: " +:+ json_file))%py
              (State (files st) (stdout st ++ out'))
        end.
Proof.
  intros Hclient. unfold main. unfold bind at 1. unfold lift at 1.
  rewrite Hclient. destruct (path_exists audio_file); cbn [negb].
  - unfold bind at 1 2. unfold print at 1. cbn [files stdout].
    destruct (transcribe_audio_value w audio_file true
                (State (files st)
                   (stdout st ++ ["=== Gemini 2.5 Flash Transcription ==="])))
      as [out ->].
    cbn [files stdout]. rewrite <- app_assoc.
    destruct (transcribe_result w audio_file true).
    + by eexists [], _.
    + unfold print. cbn [files stdout]. rewrite <- app_assoc.
      by eexists _, [].
  - unfold bind, print. cbn [files stdout]. rewrite <- app_assoc.
    by eexists _, [].
Qed.

Lemma export_md_at_clock data st :
  to_notion_markdown (at_clock w (fst (fst stamps))) data None st =
    match open_w w (main_md_path stamps) with
    | Returned _ =>
        (Returned (main_md_path stamps),
         State (<[main_md_path stamps := notion_markdown data]> (files st))
           (stdout st ++ ["Notion Markdown exported to: "
                          +:+ main_md_path stamps]))
    | Raised e => (Raised e, st)
    end.
Proof. by rewrite to_notion_markdown_default. Qed.

Lemma export_txt_at_clock data st :
  to_google_docs_text (at_clock w (snd (fst stamps))) data None st =
    match google_docs_text data with
    | Raised e => (Raised e, st)
    | Returned content =>
        match open_w w (main_txt_path stamps) with
        | Returned _ =>
            (Returned (main_txt_path stamps),
             State (<[main_txt_path stamps := content]> (files st))
               (stdout st ++ ["Google Docs text exported to: "
                              +:+ main_txt_path stamps]))
        | Raised e => (Raised e, st)
        end
    end.
Proof. by rewrite to_google_docs_text_run. Qed.

Lemma export_json_at_clock data st :
  to_json (at_clock w (snd stamps)) data None st =
    match open_w w (main_json_path stamps) with
    | Returned _ =>
        (Returned (main_json_path stamps),
         State (<[main_json_path stamps := json_dumps data]> (files st))
           (stdout st ++ ["JSON exported to: " +:+ main_json_path stamps]))
    | Raised e => (Raised e, st)
    end.
Proof. by rewrite to_json_run. Qed.

End Main.



(** X14: when the transcription gives a record with a text, and the three
    files can be opened, [main] returns after writing the Markdown, the plain
    text and the JSON of that record to three different paths, and it writes
    nothing else. *)
Theorem main_exports_three_files w path_exists stamps st data t :
  new_client w = Returned tt ->
  path_exists audio_file = true ->
  transcribe_result w audio_file true = Some data ->
  transcript data = PyStr t ->
  open_w w (main_md_path stamps) = Returned tt ->
  open_w w (main_txt_path stamps) = Returned tt ->
  open_w w (main_json_path stamps) = Returned tt ->
  fst (main w path_exists stamps st) = Returned tt
  /\ files (snd (main w path_exists stamps st)) !! main_md_path stamps
     = Some (notion_markdown data)
  /\ files (snd (main w path_exists stamps st)) !! main_txt_path stamps
     = Some (google_docs_header (file_info data) +:+ t)
  /\ files (snd (main w path_exists stamps st)) !! main_json_path stamps
     = Some (json_dumps data)
  /\ (forall q,
        q <> main_md_path stamps -> q <> main_txt_path stamps ->
        q <> main_json_path stamps ->
        files (snd (main w path_exists stamps st)) !! q = files st !! q).
Proof.
  intros Hclient Hex Hres Ht Hmd Htxt Hjson.
  destruct (main_run w path_exists stamps st Hclient) as (out & out' & ->).
  rewrite Hex, Hres. cbn [negb].
  unfold bind. rewrite export_md_at_clock, Hmd. cbv beta iota zeta.
  rewrite export_txt_at_clock. unfold google_docs_text.
  rewrite Ht, Htxt. cbv beta iota zeta.
  rewrite export_json_at_clock, Hjson. cbv beta iota zeta.
  unfold print, lift, transcript_preview.
  cbn [fst snd files stdout].
  destruct (main_paths_differ stamps) as (H12 & H13 & H23).
  split; [done|]. split; [|split; [|split]].
  - rewrite lookup_insert_ne by done. rewrite lookup_insert_ne by done.
    apply lookup_insert_eq.
  - rewrite lookup_insert_ne by done. apply lookup_insert_eq.
  - apply lookup_insert_eq.
  - intros q H1 H2 H3. by rewrite !lookup_insert_ne.
Qed.

Lemma main_exports_three_files_witness :
  fst (main Demo.w (fun _ => true) Sample.stamps Demo.st) = Returned tt
  /\ files (snd (main Demo.w (fun _ => true) Sample.stamps Demo.st))
       !! "transcript_20240101_000001.json"
     = Some (json_dumps
               (structured_record
                  {| filename := "file.mp3"; file_size := "1.00 MB";
                     processed_at := "2024-01-01T00:00:00" |}
                  Demo.structured_text)).
Proof.
  destruct (main_exports_three_files Demo.w (fun _ => true) Sample.stamps
              Demo.st
              (structured_record
                 {| filename := "file.mp3"; file_size := "1.00 MB";
                    processed_at := "2024-01-01T00:00:00" |}
                 Demo.structured_text)
              "Hello world"
              eq_refl eq_refl eq_refl eq_refl eq_refl eq_refl eq_refl)
    as (H1 & _ & _ & H4 & _).
  split; [exact H1 | exact H4].
Defined.

(** X15: when the service answers without text, [main] writes the Markdown
    file and then raises [TypeError] from the plain-text export: neither the
    text file nor the JSON file is written. *)
Theorem main_stops_without_text w path_exists stamps st data :
  new_client w = Returned tt ->
  path_exists audio_file = true ->
  transcribe_result w audio_file true = Some data ->
  transcript data = PyNone ->
  open_w w (main_md_path stamps) = Returned tt ->
  exists e,
    fst (main w path_exists stamps st) = Raised e
    /\ exn_class e = "TypeError"
    /\ files (snd (main w path_exists stamps st))
       = <[main_md_path stamps := notion_markdown data]> (files st).
Proof.
  intros Hclient Hex Hres Ht Hmd.
  destruct (main_run w path_exists stamps st Hclient) as (out & out' & ->).
  rewrite Hex, Hres. cbn [negb].
  unfold bind. rewrite export_md_at_clock, Hmd. cbv beta iota zeta.
  rewrite export_txt_at_clock. unfold google_docs_text.
  rewrite Ht. cbn [fst snd files]. by eexists.
Qed.

Lemma main_stops_without_text_witness :
  exists e,
    fst (main Sample.no_text (fun _ => true) Sample.stamps Demo.st) = Raised e
    /\ exn_class e = "TypeError".
Proof.
  destruct (main_stops_without_text Sample.no_text (fun _ => true)
              Sample.stamps Demo.st
              (sentinel_record
                 {| filename := "file.mp3"; file_size := "1.00 MB";
                    processed_at := "2024-01-01T00:00:00" |}
                 "Error" "Failed to parse structure" PyNone)
              eq_refl eq_refl eq_refl eq_refl eq_refl) as (e & H1 & H2 & _).
  exists e. split; [exact H1 | exact H2].
Defined.

(** X16: [main] does not contain an export failure: when the first file
    cannot be opened it raises the error of [open] and no file is written. *)
Theorem main_raises_export_failure w path_exists stamps st data e :
  new_client w = Returned tt ->
  path_exists audio_file = true ->
  transcribe_result w audio_file true = Some data ->
  open_w w (main_md_path stamps) = Raised e ->
  fst (main w path_exists stamps st) = Raised e
  /\ files (snd (main w path_exists stamps st)) = files st.
Proof.
  intros Hclient Hex Hres Hmd.
  destruct (main_run w path_exists stamps st Hclient) as (out & out' & ->).
  rewrite Hex, Hres. cbn [negb].
  unfold bind. by rewrite export_md_at_clock, Hmd.
Qed.

Lemma main_raises_export_failure_witness :
  fst (main Sample.read_only (fun _ => true) Sample.stamps Demo.st)
    = Raised (Exn "PermissionError"
                "[Errno 13] Permission denied: 'transcript_20240101_000000.md'").
Proof.
  apply (main_raises_export_failure Sample.read_only (fun _ => true)
           Sample.stamps Demo.st
           (structured_record
              {| filename := "file.mp3"; file_size := "1.00 MB";
                 processed_at := "2024-01-01T00:00:00" |}
              Demo.structured_text)); reflexivity.
Defined.

(** * More on the batch loop *)

Section BatchFiles.

Variables (w : world) (output_directory : string).

Lemma batch_iteration_files entry st :
  exists out,
    batch_iteration w output_directory entry st
      = (Returned tt,
         State (batch_round_files w output_directory (files st) entry)
           (stdout st ++ out)).
Proof.
  unfold batch_iteration, batch_round_files.
  destruct (has_audio_suffix (d_path entry)).
  2:{ exists []. rewrite app_nil_r. by destruct st. }
  unfold bind at 1 2 3, print. cbn [files stdout].
  unfold try_except, bind.
  match goal with
  | |- context [transcribe_audio w (d_path entry) true ?s] =>
      destruct (transcribe_audio_value w (d_path entry) true s) as [out ->]
  end.
  cbn [files stdout].
  destruct (transcribe_result w (d_path entry) true) as [data|].
  - rewrite to_notion_markdown_run.
    destruct (open_w w _) as [u|e]; unfold ret, print; cbn [files stdout];
      eexists; rewrite <- !app_assoc; reflexivity.
  - unfold ret. eexists. rewrite <- !app_assoc. reflexivity.
Qed.

Lemma batch_loop_files entries st :
  exists out,
    batch_loop w output_directory entries st
      = (Returned tt,
         State (batch_files w output_directory entries (files st))
           (stdout st ++ out)).
Proof.
  unfold batch_loop, batch_files. revert st.
  induction entries as [|x l IH]; intros st.
  { exists []. rewrite app_nil_r. by destruct st. }
  rewrite for_each_cons.
  destruct (batch_iteration_files x st) as [out1 ->].
  destruct (IH (State (batch_round_files w output_directory (files st) x)
                  (stdout st ++ out1))) as [out2 ->].
  cbn [files stdout fold_left]. exists (out1 ++ out2).
  by rewrite app_assoc.
Qed.

Lemma batch_round_files_other fs entry q :
  (has_audio_suffix (d_path entry) = true ->
   artifact_path output_directory (d_path entry) <> q) ->
  batch_round_files w output_directory fs entry !! q = fs !! q.
Proof.
  unfold batch_round_files. intros H.
  destruct (has_audio_suffix (d_path entry)); [|done].
  destruct (transcribe_result w (d_path entry) true); [|done].
  destruct (open_w w _); [|done]. rewrite lookup_insert_ne; auto.
Qed.

Lemma batch_files_other entries fs q :
  (forall e,
     e ∈ entries -> has_audio_suffix (d_path e) = true ->
     artifact_path output_directory (d_path e) <> q) ->
  batch_files w output_directory entries fs !! q = fs !! q.
Proof.
  unfold batch_files. revert fs.
  induction entries as [|x l IH]; intros fs H; [done|].
  cbn [fold_left]. rewrite IH.
  - apply batch_round_files_other. apply H. by left.
  - intros e He. apply H. by right.
Qed.

Lemma batch_files_cons x l fs :
  batch_files w output_directory (x :: l) fs
    = batch_files w output_directory l
        (batch_round_files w output_directory fs x).
Proof. reflexivity. Qed.

Lemma batch_files_app l1 l2 fs :
  batch_files w output_directory (l1 ++ l2) fs
    = batch_files w output_directory l2 (batch_files w output_directory l1 fs).
Proof. unfold batch_files. apply fold_left_app. Qed.

End BatchFiles.

Lemma batch_transcribe_directory_files w input_directory output_directory
    entries st :
  mkdir_exist_ok w output_directory = Returned tt ->
  new_client w = Returned tt ->
  iterdir w input_directory = Returned entries ->
  fst (batch_transcribe_directory w input_directory output_directory st)
    = Returned tt
  /\ files (snd (batch_transcribe_directory w input_directory
                   output_directory st))
     = batch_files w output_directory entries (files st).
Proof.
  intros Hm Hc Hi.
  rewrite (batch_transcribe_directory_loop w _ _ entries st Hm Hc Hi).
  by destruct (batch_loop_files w output_directory entries st) as [out ->].
Qed.

(** X17: the files a batch run leaves are the files it found, overwritten in
    listing order by the Markdown of each selected entry for which the service
    call, the parser and [open] all succeed. The run itself returns. *)
Theorem batch_run_files w input_directory output_directory entries st :
  mkdir_exist_ok w output_directory = Returned tt ->
  new_client w = Returned tt ->
  iterdir w input_directory = Returned entries ->
  fst (batch_transcribe_directory w input_directory output_directory st)
    = Returned tt
  /\ files (snd (batch_transcribe_directory w input_directory
                   output_directory st))
     = batch_files w output_directory entries (files st).
Proof. apply batch_transcribe_directory_files. Qed.

Lemma batch_run_files_witness :
  files (snd (batch_transcribe_directory Demo.w "in" "out" Demo.st))
    = batch_files Demo.w "out" Demo.listing ∅.
Proof.
  apply (batch_run_files Demo.w "in" "out" Demo.listing Demo.st);
    reflexivity.
Defined.

(** X18: the artifact of a selected entry holds the Markdown of its own
    record when the run ends, provided its processing succeeds and no later
    selected entry has the same artifact path. An earlier entry with the same
    stem is thus overwritten. *)
Theorem batch_last_writer_wins w input_directory output_directory
    before entry later st data :
  mkdir_exist_ok w output_directory = Returned tt ->
  new_client w = Returned tt ->
  iterdir w input_directory = Returned (before ++ entry :: later) ->
  has_audio_suffix (d_path entry) = true ->
  transcribe_result w (d_path entry) true = Some data ->
  open_w w (artifact_path output_directory (d_path entry)) = Returned tt ->
  (forall e,
     e ∈ later -> has_audio_suffix (d_path e) = true ->
     artifact_path output_directory (d_path e)
       <> artifact_path output_directory (d_path entry)) ->
  files (snd (batch_transcribe_directory w input_directory
                output_directory st))
    !! artifact_path output_directory (d_path entry)
  = Some (notion_markdown data).
Proof.
  intros Hm Hc Hi Ha Hres Hopen Hlater.
  destruct (batch_transcribe_directory_files w input_directory
              output_directory _ st Hm Hc Hi) as [_ ->].
  rewrite batch_files_app, batch_files_cons.
  rewrite batch_files_other by done.
  unfold batch_round_files. rewrite Ha, Hres, Hopen.
  apply lookup_insert_eq.
Qed.

Lemma batch_last_writer_wins_witness :
  files (snd (batch_transcribe_directory Sample.same_stem_world "in" "out"
                Demo.st))
    !! "out/a_transcript.md"
  = Some (notion_markdown
            (structured_record
               {| filename := "a.wav"; file_size := "1.00 MB";
                  processed_at := "2024-01-01T00:00:00" |}
               Demo.structured_text)).
Proof.
  apply (batch_last_writer_wins Sample.same_stem_world "in" "out"
           [Dirent "in/a.mp3" false] (Dirent "in/a.wav" false) [] Demo.st);
    try reflexivity.
  intros e He. by apply elem_of_nil in He.
Defined.

(** X19: a batch run changes no path other than the artifact paths of the
    selected entries. *)
Theorem batch_writes_artifacts_only w input_directory output_directory
    entries st q :
  mkdir_exist_ok w output_directory = Returned tt ->
  new_client w = Returned tt ->
  iterdir w input_directory = Returned entries ->
  (forall e,
     e ∈ entries -> has_audio_suffix (d_path e) = true ->
     artifact_path output_directory (d_path e) <> q) ->
  files (snd (batch_transcribe_directory w input_directory
                output_directory st)) !! q
  = files st !! q.
Proof.
  intros Hm Hc Hi Hq.
  destruct (batch_transcribe_directory_files w input_directory
              output_directory _ st Hm Hc Hi) as [_ ->].
  by apply batch_files_other.
Qed.

Lemma batch_writes_artifacts_only_witness :
  files (snd (batch_transcribe_directory Demo.w "in" "out" Demo.st))
    !! "in/a.mp3" = None.
Proof.
  apply (batch_writes_artifacts_only Demo.w "in" "out" Demo.listing Demo.st
           "in/a.mp3"); try reflexivity.
  intros e He%list_elem_of_In Ha. simpl in He.
  destruct He as [<-|[<-|[<-|[<-|[<-|[]]]]]]; discriminate.
Defined.

(** X20: the containment of failures covers the rounds of the loop only:
    when the output directory cannot be created, the client cannot be built
    or the input directory cannot be listed, the batch raises that error and
    processes nothing. *)
Theorem batch_setup_failure_aborts w input_directory output_directory st e :
  mkdir_exist_ok w output_directory = Raised e
  \/ (mkdir_exist_ok w output_directory = Returned tt
      /\ new_client w = Raised e)
  \/ (mkdir_exist_ok w output_directory = Returned tt
      /\ new_client w = Returned tt
      /\ iterdir w input_directory = Raised e) ->
  batch_transcribe_directory w input_directory output_directory st
    = (Raised e, st).
Proof.
  unfold batch_transcribe_directory, bind, lift.
  intros [->|[[-> ->]|(-> & -> & ->)]]; done.
Qed.

Lemma batch_setup_failure_aborts_witness :
  batch_transcribe_directory Sample.no_output_directory "in" "missing/out"
    Demo.st
  = (Raised (Exn "FileNotFoundError"
               "[Errno 2] No such file or directory: 'missing/out'"), Demo.st).
Proof.
  apply (batch_setup_failure_aborts Sample.no_output_directory "in"
           "missing/out" Demo.st).
  left. reflexivity.
Defined.

(** * Paths and pieces of text *)

(** X21: the stem and the suffix of a path make up its name: the artifact of
    the batch loop is named after the file name without its suffix. *)
Theorem stem_suffix_name file_path :
  Path.stem file_path +:+ Path.suffix file_path = Path.name file_path.
Proof.
  unfold Path.stem, Path.suffix.
  destruct (Str.rfind "." (Path.name file_path)) as [i|].
  - destruct ((0 <? i) && (i <? String.length (Path.name file_path) - 1)).
    + apply StrMore.take_drop_str.
    + apply StrMore.app_nil_r_str.
  - apply StrMore.app_nil_r_str.
Qed.

(** X22: [split] cuts a text at every occurrence of a non-empty separator:
    no piece holds the separator, and joining the pieces with the separator
    gives the text back. *)
Theorem split_join_round_trip sep s :
  sep <> EmptyString ->
  Str.join sep (Str.split sep None s) = s
  /\ (forall piece,
        piece ∈ Str.split sep None s -> Str.contains sep piece = false).
Proof.
  intros Hsep. split; [by apply SplitFacts.join_split|].
  intros piece. by apply SplitFacts.split_pieces.
Qed.

Lemma split_join_round_trip_witness :
  Str.join nl (Str.split nl None Demo.mixed_text) = Demo.mixed_text.
Proof.
  apply (split_join_round_trip nl Demo.mixed_text). discriminate.
Defined.

(** X23: [strip] removes white space and nothing else, from the two ends
    only: the text is some white space, the stripped text, some white space,
    and the stripped text neither begins nor ends with white space. *)
Theorem strip_removes_outer_white_space s :
  (exists a b,
     s = a +:+ Str.strip s +:+ b
     /\ all_space a = true /\ all_space b = true)
  /\ Str.lstrip (Str.strip s) = Str.strip s
  /\ Str.rstrip (Str.strip s) = Str.strip s.
Proof.
  split; [apply StrMore.strip_decompose|].
  split; [apply StrMore.strip_lstrip | apply StrMore.strip_rstrip].
Qed.

(** * sort_files: the keyword rules *)

Module SortFacts.
Import SortFiles Str StrFacts StrMore.

Lemma drop_app_length w r : drop (String.length w) (w +:+ r) = r.
Proof. induction w as [|c w IH]; [done|]. by rewrite app_cons_str. Qed.

Lemma word_search_unfold prev word text :
  word_search prev word text =
    negb prev && startswith word text
      && boundary_after (drop (String.length word) text)
    || match text with
       | EmptyString => false
       | String c rest => word_search (is_word_char c) word rest
       end.
Proof. destruct text; [|done]. simpl. by rewrite orb_false_r. Qed.

Lemma last_char_cons c l :
  last_char (String c l)
    = match l with EmptyString => Some c | String _ _ => last_char l end.
Proof. by destruct l. Qed.

Lemma last_char_None l : last_char l = None -> l = EmptyString.
Proof.
  induction l as [|c l IH]; [done|]. rewrite last_char_cons.
  destruct l; [done|]. intros H. by apply IH in H.
Qed.

(** The search, started after a character [prev], finds exactly the
    occurrences with a boundary on each side. *)
Lemma word_search_iff word prev text :
  word <> EmptyString ->
  word_search prev word text = true <->
  exists l r,
    text = l +:+ word +:+ r
    /\ match last_char l with
       | Some c => is_word_char c = false
       | None => prev = false
       end
    /\ boundary_after r = true.
Proof.
  intros Hw. split.
  - revert prev. induction text as [|c text IH]; intros prev;
      rewrite word_search_unfold.
    + rewrite orb_false_r. intros [[Hp Hs]%andb_prop Hb]%andb_prop.
      exists "", (drop (String.length word) ""). split; [|split].
      * by apply startswith_eq in Hs.
      * by destruct prev.
      * done.
    + intros [[[Hp Hs]%andb_prop Hb]%andb_prop|Hrec]%orb_prop.
      * exists "", (drop (String.length word) (String c text)).
        split; [by apply startswith_eq in Hs|]. split; [|exact Hb].
        simpl. by destruct prev.
      * apply IH in Hrec as (l & r & -> & Hl & Hr).
        exists (String c l), r. split; [done|]. split; [|done].
        rewrite last_char_cons. destruct l as [|c' l].
        { simpl in Hl. by destruct (is_word_char c). }
        destruct (last_char (String c' l)) eqn:E; [done|].
        by apply last_char_None in E.
  - intros (l & r & -> & Hl & Hr). revert prev Hl.
    induction l as [|c l IH]; intros prev Hl; rewrite word_search_unfold.
    + change ("" +:+ word +:+ r) with (word +:+ r).
      simpl in Hl. subst prev.
      by rewrite startswith_app, drop_app_length, Hr.
    + rewrite app_cons_str. apply orb_true_intro. right. apply IH.
      rewrite last_char_cons in Hl. destruct l as [|c' l].
      { simpl. by destruct (is_word_char c). }
      destruct (last_char (String c' l)) eqn:E; [done|].
      by apply last_char_None in E.
Qed.

(** The search from the start of a text finds the whole-word occurrences. *)
Lemma word_search_occurs word text :
  word <> EmptyString ->
  word_search false word text = true <-> occurs_as_word word text.
Proof.
  intros Hw. rewrite word_search_iff by done. unfold occurs_as_word.
  split; intros (l & r & Ht & Hl & Hr); exists l, r;
    (split; [done|]); (split; [|done]); by destruct (last_char l).
Qed.

Lemma any_keyword_iff keywords text :
  any_keyword keywords text = true <->
  exists word, word ∈ keywords /\ word_search false word text = true.
Proof.
  induction keywords as [|w ws IH]; cbn [any_keyword].
  - split; [done|]. intros (word & H & _). by apply elem_of_nil in H.
  - destruct (word_search false w text) eqn:E.
    + split; [|done]. intros _. exists w. split; [by left | done].
    + rewrite IH. split.
      * intros (word & Hin & Hs). exists word. split; [by right | done].
      * intros (word & [->|Hin]%elem_of_cons & Hs); [congruence|eauto].
Qed.

Lemma all_word_chars_app a b :
  all_word_chars (a +:+ b) = all_word_chars a && all_word_chars b.
Proof.
  induction a as [|c a IH]; [done|]. rewrite app_cons_str. simpl.
  by rewrite IH, andb_assoc.
Qed.

Lemma all_word_chars_last l c :
  all_word_chars l = true -> last_char l = Some c -> is_word_char c = true.
Proof.
  induction l as [|x l IH]; [done|]. simpl all_word_chars.
  intros [Hx Hl]%andb_prop. rewrite last_char_cons.
  destruct l as [|y l]; [by intros [= <-]|]. by apply IH.
Qed.

(** In a text made of word characters only, a word occurs as a whole word
    exactly when it is the text. *)
Lemma occurs_in_one_word word text :
  all_word_chars text = true ->
  occurs_as_word word text <-> word = text.
Proof.
  intros Hall. split.
  - intros (l & r & -> & Hl & Hr).
    rewrite !all_word_chars_app in Hall.
    apply andb_prop in Hall as [Hal [_ Har]%andb_prop].
    assert (l = "") as ->.
    { destruct (last_char l) as [c|] eqn:E; [|by apply last_char_None].
      apply (all_word_chars_last l c Hal) in E. congruence. }
    assert (r = "") as ->.
    { destruct r as [|c r]; [done|]. simpl in Hr, Har.
      apply andb_prop in Har as [Hc _]. by rewrite Hc in Hr. }
    change ("" +:+ word +:+ "") with (word +:+ ""). by rewrite app_nil_r_str.
  - intros ->. exists "", "". split; [|done].
    change ("" +:+ text +:+ "") with (text +:+ ""). by rewrite app_nil_r_str.
Qed.

Lemma keywords_not_empty category keywords word :
  (category, keywords) ∈ CATEGORY_RULES -> word ∈ keywords ->
  word <> EmptyString /\ category <> "Unsorted".
Proof.
  intros Hr Hw. apply list_elem_of_In in Hr. simpl in Hr.
  destruct Hr as [[= <- <-]|[[= <- <-]|[[= <- <-]|[[= <- <-]|[[= <- <-]|[]]]]]];
    (split; [|done]); apply list_elem_of_In in Hw; simpl in Hw;
    intuition (subst; discriminate).
Qed.

Lemma first_category_matched rules text :
  first_category rules text <> "Unsorted" ->
  exists category keywords word,
    (category, keywords) ∈ rules /\ word ∈ keywords
    /\ word_search false word text = true.
Proof.
  induction rules as [|[c kws] rules IH]; cbn [first_category]; [done|].
  destruct (any_keyword kws text) eqn:E.
  - intros _. apply any_keyword_iff in E as (w & Hin & Hs).
    exists c, kws, w. split; [by left | done].
  - intros (c' & kws' & w & Hr & Hw & Hs)%IH.
    exists c', kws', w. split; [by right | done].
Qed.

End SortFacts.

Lemma first_matching_rule text :
  (SortFiles.get_file_category text = "Unsorted" <->
   forall category keywords word,
     (category, keywords) ∈ SortFiles.CATEGORY_RULES -> word ∈ keywords ->
     ~ SortFiles.occurs_as_word word text)
  /\ (forall earlier category keywords later,
        SortFiles.CATEGORY_RULES = earlier ++ (category, keywords) :: later ->
        (exists word, word ∈ keywords /\ SortFiles.occurs_as_word word text) ->
        (forall category' keywords' word,
           (category', keywords') ∈ earlier -> word ∈ keywords' ->
           ~ SortFiles.occurs_as_word word text) ->
        SortFiles.get_file_category text = category).
Proof.
  unfold SortFiles.get_file_category.
  assert (Hgen : forall rules,
            (forall c kws w, (c, kws) ∈ rules -> w ∈ kws ->
                             w <> EmptyString /\ c <> "Unsorted") ->
            (SortFiles.first_category rules text = "Unsorted" <->
             forall c kws w, (c, kws) ∈ rules -> w ∈ kws ->
                             ~ SortFiles.occurs_as_word w text)
            /\ (forall earlier c kws later,
                  rules = earlier ++ (c, kws) :: later ->
                  (exists w, w ∈ kws /\ SortFiles.occurs_as_word w text) ->
                  (forall c' kws' w, (c', kws') ∈ earlier -> w ∈ kws' ->
                                     ~ SortFiles.occurs_as_word w text) ->
                  SortFiles.first_category rules text = c)).
  { induction rules as [|[c0 kws0] rules IH]; intros Hok.
    { split.
      - split; [|done]. intros _ c kws w H. by apply elem_of_nil in H.
      - intros [|? ?] ? ? ? ?; discriminate. }
    assert (Hok' : forall c kws w, (c, kws) ∈ rules -> w ∈ kws ->
                                   w <> EmptyString /\ c <> "Unsorted").
    { intros c kws w H. apply Hok. by right. }
    destruct (IH Hok') as [IHu IHf]. cbn [SortFiles.first_category].
    destruct (SortFiles.any_keyword kws0 text) eqn:E.
    - apply SortFacts.any_keyword_iff in E as (w0 & Hin0 & Hs0).
      destruct (Hok c0 kws0 w0 ltac:(by left) Hin0) as [Hne0 Hc0].
      apply SortFacts.word_search_occurs in Hs0; [|done].
      split.
      + split; [done|]. intros H. destruct (H c0 kws0 w0); [by left|done..].
      + intros [|[c1 kws1] earlier] c kws later Heq Hex Hearlier.
        * by injection Heq as <- <-.
        * injection Heq as <- <- _.
          destruct (Hearlier c0 kws0 w0); [by left|done..].
    - assert (Hnone : forall w, w ∈ kws0 -> ~ SortFiles.occurs_as_word w text).
      { intros w Hin Hocc.
        destruct (Hok c0 kws0 w ltac:(by left) Hin) as [Hne _].
        apply SortFacts.word_search_occurs in Hocc; [|done].
        assert (SortFiles.any_keyword kws0 text = true)
          by (apply SortFacts.any_keyword_iff; eauto).
        congruence. }
      split.
      + rewrite IHu. split.
        * intros H c kws w [[= -> ->]|Hin]%elem_of_cons; [apply Hnone|].
          exact (H c kws w Hin).
        * intros H c kws w Hin. apply (H c kws w). by right.
      + intros [|[c1 kws1] earlier] c kws later Heq Hex Hearlier.
        * injection Heq as <- <- _. destruct Hex as (w & Hin & Hocc).
          by destruct (Hnone w Hin).
        * injection Heq as <- <- ->. apply (IHf earlier c kws later); [done..|].
          intros c' kws' w Hin. apply (Hearlier c' kws' w). by right. }
  apply Hgen. apply SortFacts.keywords_not_empty.
Qed.




(** X25: [get_file_category] gives the category of the first rule, in the
    order of the table, one of whose keywords occurs as a whole word, whatever
    later rules match; it gives [Unsorted] exactly when no keyword of any
    rule occurs. *)
Theorem category_of_first_matching_rule text :
  (SortFiles.get_file_category text = "Unsorted" <->
   forall category keywords word,
     (category, keywords) ∈ SortFiles.CATEGORY_RULES -> word ∈ keywords ->
     ~ SortFiles.occurs_as_word word text)
  /\ (forall earlier category keywords later,
        SortFiles.CATEGORY_RULES = earlier ++ (category, keywords) :: later ->
        (exists word, word ∈ keywords /\ SortFiles.occurs_as_word word text) ->
        (forall category' keywords' word,
           (category', keywords') ∈ earlier -> word ∈ keywords' ->
           ~ SortFiles.occurs_as_word word text) ->
        SortFiles.get_file_category text = category).
Proof. apply first_matching_rule. Qed.

Lemma category_of_first_matching_rule_witness :
  SortFiles.get_file_category "tax report" = "Finance".
Proof.
  apply (proj2 (category_of_first_matching_rule "tax report")
           [] "Finance" ["invoice"; "payment"; "receipt"; "tax"; "bill"]
           (tl SortFiles.CATEGORY_RULES) eq_refl).
  - exists "tax". split; [apply list_elem_of_In; simpl; tauto|].
    apply SortFacts.word_search_occurs; [discriminate | reflexivity].
  - intros c kws w H. by apply elem_of_nil in H.
Defined.

(** X26: a keyword inside a longer word does not count: a text made of word
    characters only gets a category exactly when it is itself one of the
    keywords. *)
Theorem single_word_gets_category_iff_keyword text :
  SortFiles.all_word_chars text = true ->
  SortFiles.get_file_category text <> "Unsorted" <->
  exists category keywords,
    (category, keywords) ∈ SortFiles.CATEGORY_RULES /\ text ∈ keywords.
Proof.
  intros Hall.
  destruct (first_matching_rule text) as [Hu _]. split.
  - intros (c & kws & w & Hr & Hw & Hs)%SortFacts.first_category_matched.
    exists c, kws. split; [done|].
    destruct (SortFacts.keywords_not_empty c kws w Hr Hw) as [Hne _].
    apply SortFacts.word_search_occurs in Hs; [|done].
    by apply SortFacts.occurs_in_one_word in Hs as <-.
  - intros (c & kws & Hr & Hw) Heq.
    apply (proj1 Hu Heq c kws text Hr Hw).
    by apply SortFacts.occurs_in_one_word.
Qed.

Lemma single_word_gets_category_iff_keyword_witness :
  SortFiles.get_file_category "specification" = "Unsorted".
Proof.
  destruct (decide (SortFiles.get_file_category "specification" = "Unsorted"))
    as [H|H]; [exact H|].
  apply (single_word_gets_category_iff_keyword "specification" eq_refl) in H.
  exfalso. destruct H as (c & kws & Hr & Hw).
  apply list_elem_of_In in Hr. simpl in Hr.
  destruct Hr as [[= <- <-]|[[= <- <-]|[[= <- <-]|[[= <- <-]|[[= <- <-]|[]]]]]];
    apply list_elem_of_In in Hw; simpl in Hw;
    intuition discriminate.
Defined.

(** * sort_files: the loop *)

Module SortLoop.
Import SortFiles.

Lemma first_category_range rules text :
  first_category rules text = "Unsorted"
  \/ first_category rules text ∈ map fst rules.
Proof.
  induction rules as [|[c kws] rules IH]; cbn [first_category]; [by left|].
  destruct (any_keyword kws text).
  - right. by left.
  - destruct IH as [|IH]; [by left|]. right. by right.
Qed.

Lemma get_file_category_range text : get_file_category text ∈ categories.
Proof.
  destruct (first_category_range CATEGORY_RULES text) as [H|H];
    unfold get_file_category; rewrite ?H.
  - apply list_elem_of_In. simpl. tauto.
  - apply list_elem_of_In in H. apply list_elem_of_In.
    simpl in *. tauto.
Qed.

Lemma extract_pdf_events env filepath :
  forall ev, ev ∈ fst (extract_text_from_pdf env filepath) ->
             exists line, ev = Printed line.
Proof.
  unfold extract_text_from_pdf. intros ev.
  destruct (obind _ _); cbn [fst].
  - intros H. by apply elem_of_nil in H.
  - intros ->%list_elem_of_singleton. eauto.
Qed.

Lemma extract_docx_events env filepath :
  forall ev, ev ∈ fst (extract_text_from_docx env filepath) ->
             exists line, ev = Printed line.
Proof.
  unfold extract_text_from_docx. intros ev.
  destruct (docx_document env filepath); cbn [fst].
  - intros H. by apply elem_of_nil in H.
  - intros ->%list_elem_of_singleton. eauto.
Qed.

Lemma move_file_moved env src category s d :
  Moved s d ∈ fst (move_file env src category) ->
  s = src /\ d = destination env src category.
Proof.
  unfold move_file. destruct (os_makedirs env _); cbn [fst].
  2:{ intros H. by apply elem_of_nil in H. }
  destruct (shutil_move env src _); cbn [fst].
  - rewrite !elem_of_cons.
    intros [?|[[= -> ->]|[?|H]]]; try done. by apply elem_of_nil in H.
  - by intros ?%list_elem_of_singleton.
Qed.

(** A round that is not a document's does nothing. *)
Lemma sort_round_skip env filename :
  is_document env filename = false ->
  sort_round env filename = ([], Returned tt).
Proof.
  unfold is_document, sort_round.
  destruct (os_isfile env _); [|done]. cbn [andb negb].
  intros [-> ->]%orb_false_elim. done.
Qed.

Lemma sort_round_moved env filename s d :
  Moved s d ∈ fst (sort_round env filename) ->
  is_document env filename = true
  /\ s = os_join env DOWNLOADS_DIR filename
  /\ exists category, category ∈ categories /\ d = destination env s category.
Proof.
  destruct (is_document env filename) eqn:Hdoc.
  2:{ rewrite sort_round_skip by done. intros H. by apply elem_of_nil in H. }
  intros H. split; [done|]. revert H. unfold sort_round.
  destruct (os_isfile env _); cbn [negb].
  2:{ intros H. by apply elem_of_nil in H. }
  destruct (String.eqb _ ".pdf").
  - destruct (extract_text_from_pdf env _) as [events text] eqn:E. cbn [fst].
    intros [H|H]%elem_of_app.
    + pose proof (extract_pdf_events env
                    (os_join env DOWNLOADS_DIR filename) (Moved s d)) as Hp.
      rewrite E in Hp. by destruct (Hp H).
    + apply move_file_moved in H as [-> ->]. split; [done|].
      eexists. split; [apply get_file_category_range | done].
  - destruct (String.eqb _ ".docx").
    2:{ intros H. by apply elem_of_nil in H. }
    destruct (extract_text_from_docx env _) as [events text] eqn:E. cbn [fst].
    intros [H|H]%elem_of_app.
    + pose proof (extract_docx_events env
                    (os_join env DOWNLOADS_DIR filename) (Moved s d)) as Hp.
      rewrite E in Hp. by destruct (Hp H).
    + apply move_file_moved in H as [-> ->]. split; [done|].
      eexists. split; [apply get_file_category_range | done].
Qed.

Lemma sort_loop_cons env filename filenames :
  sort_loop env (filename :: filenames) =
    match sort_round env filename with
    | (events, Returned _) =>
        (events ++ fst (sort_loop env filenames),
         snd (sort_loop env filenames))
    | (events, Raised e) => (events, Raised e)
    end.
Proof. reflexivity. Qed.

Lemma sort_loop_moved env filenames s d :
  Moved s d ∈ fst (sort_loop env filenames) ->
  exists filename category,
    filename ∈ filenames /\ is_document env filename = true
    /\ s = os_join env DOWNLOADS_DIR filename
    /\ category ∈ categories /\ d = destination env s category.
Proof.
  induction filenames as [|x l IH].
  { intros H. by apply elem_of_nil in H. }
  rewrite sort_loop_cons.
  destruct (sort_round env x) as [events [[]|e]] eqn:E; cbn [fst].
  - intros [H|H]%elem_of_app.
    + pose proof (sort_round_moved env x s d) as Hr. rewrite E in Hr.
      destruct (Hr H) as (Hdoc & -> & c & Hc & ->).
      exists x, c. split; [by left | done].
    + destruct (IH H) as (f & c & Hin & Hrest).
      exists f, c. split; [by right | done].
  - intros H.
    pose proof (sort_round_moved env x s d) as Hr. rewrite E in Hr.
    destruct (Hr H) as (Hdoc & -> & c & Hc & ->).
    exists x, c. split; [by left | done].
Qed.

Lemma sort_loop_filter env filenames :
  sort_loop env filenames
    = sort_loop env (List.filter (is_document env) filenames).
Proof.
  induction filenames as [|x l IH]; [done|]. cbn [List.filter].
  destruct (is_document env x) eqn:Hdoc.
  - rewrite !sort_loop_cons, IH. done.
  - rewrite sort_loop_cons, sort_round_skip by done. cbn [app].
    rewrite <- IH. by destruct (sort_loop env l).
Qed.

Lemma sort_loop_stops env l1 x l2 ev1 evx e :
  sort_loop env l1 = (ev1, Returned tt) ->
  sort_round env x = (evx, Raised e) ->
  sort_loop env (l1 ++ x :: l2) = (ev1 ++ evx, Raised e).
Proof.
  revert ev1. induction l1 as [|y l1 IH]; intros ev1.
  - intros [= <-] Hx. cbn [app]. by rewrite sort_loop_cons, Hx.
  - rewrite sort_loop_cons. cbn [app]. rewrite sort_loop_cons.
    destruct (sort_round env y) as [evy [[]|e']]; [|done].
    destruct (sort_loop env l1) as [ev1' o1] eqn:E1. cbn [fst snd].
    intros [= <- ->] Hx. rewrite (IH ev1' eq_refl Hx). cbn [fst snd].
    by rewrite app_assoc.
Qed.

End SortLoop.



(** X28: [sort_files] moves documents only, and only into the folder of a
    category: every move it makes takes a listed entry that is a file with
    the extension [.pdf] or [.docx], in any case of letters, to the folder of
    one of the five categories or of [Unsorted], under its own base name. *)
Theorem sort_moves_documents_only env filenames src dst :
  SortFiles.os_listdir env SortFiles.DOWNLOADS_DIR = Returned filenames ->
  SortFiles.Moved src dst ∈ fst (SortFiles.sort_files env) ->
  exists filename category,
    filename ∈ filenames
    /\ SortFiles.is_document env filename = true
    /\ src = SortFiles.os_join env SortFiles.DOWNLOADS_DIR filename
    /\ category ∈ SortFiles.categories
    /\ dst = SortFiles.destination env src category.
Proof.
  intros Hl. unfold SortFiles.sort_files. rewrite Hl.
  apply SortLoop.sort_loop_moved.
Qed.

Lemma sort_moves_documents_only_witness :
  exists filename category,
    filename ∈ ["old"; "scan.PDF"; "q3.docx"; "cat.png"]
    /\ SortFiles.is_document SortFiles.sample_env filename = true
    /\ "C:\Users\YourName\Downloads/q3.docx"
       = SortFiles.os_join SortFiles.sample_env SortFiles.DOWNLOADS_DIR filename
    /\ category ∈ SortFiles.categories
    /\ "C:\Users\YourName\Documents\SortedDocs/Finance/q3.docx"
       = SortFiles.destination SortFiles.sample_env
           "C:\Users\YourName\Downloads/q3.docx" category.
Proof.
  apply (sort_moves_documents_only SortFiles.sample_env
           ["old"; "scan.PDF"; "q3.docx"; "cat.png"]); [reflexivity|].
  apply list_elem_of_In. vm_compute. tauto.
Defined.

(** X29: [sort_files] has no containment of failures: when creating the
    folder or moving the file raises for one entry, the run ends there with
    that error and the entries after it are left where they are. *)
Theorem sort_stops_at_first_failure env done_before filename later
    events_before events e :
  SortFiles.os_listdir env SortFiles.DOWNLOADS_DIR
    = Returned (done_before ++ filename :: later) ->
  SortFiles.sort_loop env done_before = (events_before, Returned tt) ->
  SortFiles.sort_round env filename = (events, Raised e) ->
  SortFiles.sort_files env = (events_before ++ events, Raised e).
Proof.
  intros Hl H1 Hx. unfold SortFiles.sort_files. rewrite Hl.
  by apply SortLoop.sort_loop_stops.
Qed.

Lemma sort_stops_at_first_failure_witness :
  exists events,
    SortFiles.sort_files SortFiles.sample_read_only
      = (events,
         Raised (Exn "PermissionError"
                   "[Errno 13] Permission denied: 'C:\Users\YourName\Documents\SortedDocs/Unsorted/scan.PDF'")).
Proof.
  eexists.
  apply (sort_stops_at_first_failure SortFiles.sample_read_only
           ["old"] "scan.PDF" ["q3.docx"; "cat.png"]); reflexivity.
Defined.

(** X30: entries that are not files, a folder named like a document
    included, and files with another extension are passed over: the run is
    the run over the documents of the listing. *)
Theorem sort_skips_other_entries env filenames :
  SortFiles.os_listdir env SortFiles.DOWNLOADS_DIR = Returned filenames ->
  SortFiles.sort_files env
    = SortFiles.sort_loop env
        (List.filter (SortFiles.is_document env) filenames).
Proof.
  intros Hl. unfold SortFiles.sort_files. rewrite Hl.
  apply SortLoop.sort_loop_filter.
Qed.

Lemma sort_skips_other_entries_witness :
  SortFiles.sort_files SortFiles.sample_env
    = SortFiles.sort_loop SortFiles.sample_env ["scan.PDF"; "q3.docx"].
Proof.
  apply (sort_skips_other_entries SortFiles.sample_env
           ["old"; "scan.PDF"; "q3.docx"; "cat.png"]).
  reflexivity.
Defined.
